(** * StackedLstmPolicy: graph assembly of btgym/research/policy_stacked_lstm.py

    The constructor [StackedLstmPolicy.__init__] assembles a TensorFlow
    dataflow graph.  The graph is data: the constructor is embedded as a
    function building symbolic tensor handles, and the evaluation of the
    graph against fed inputs is embedded at the level the constructor
    reasons about, namely tensor shapes (and, for [tf.reshape], the
    row-major element buffer). *)

From stdpp Require Import gmap strings list fin_maps pretty.
From Stdlib Require Import ZArith Lia.

Open Scope Z_scope.
#[local] Set Warnings "-register-all".

(** ** Exceptions and results *)

Inductive py_error :=
  | KeyError (key : string)
  | IndexError
  | TypeError
  | ValueError                (* graph-construction time shape failure *)
  | InvalidArgumentError.     (* evaluation time shape failure *)

Inductive result (A : Type) :=
  | Ok (a : A)
  | Raise (e : py_error).
Arguments Ok {A} a.
Arguments Raise {A} e.

(** [result] is a monad; stdpp's [x ← r; k] notation binds in it. *)
#[global] Instance result_ret : MRet result := λ A a, Ok a.
#[global] Instance result_bind : MBind result := λ A B k r,
  match r with
  | Ok a => k a
  | Raise e => Raise e
  end.

Definition is_ok {A} (r : result A) : bool :=
  match r with Ok _ => true | Raise _ => false end.

Definition of_option {A} (e : py_error) (o : option A) : result A :=
  match o with Some a => Ok a | None => Raise e end.

Fixpoint sequence {A} (rs : list (result A)) : result (list A) :=
  match rs with
  | [] => Ok []
  | r :: rs' => a ← r; l ← sequence rs'; Ok (a :: l)
  end.

(** ** Shape arithmetic *)

(** [np.prod] over a list of integers; the empty product is 1. *)
Definition np_prod (dims : list Z) : Z := foldr Z.mul 1 dims.

(** [tf.cast(a / b, tf.int32)] on int32 scalars.  Under Python 3 [/] on
    tensors is true division: both operands are converted to float64,
    divided, and the cast truncates towards zero.  On int32 operands the
    truncated float64 quotient is the truncated exact quotient.  For
    [b = 0] the quotient is an infinity or a NaN, whose conversion to
    int32 is platform specific: it is the parameter [nonfinite]. *)
Definition cast_int32_truediv (nonfinite : Z) (a b : Z) : Z :=
  if decide (b = 0) then nonfinite else Z.quot a b.

(** Shape argument of [tf.reshape], checked against the number of
    elements [size] of the input: every entry is [>= -1], at most one
    entry is [-1] and it is inferred, and the element count is kept. *)
Definition reshape_dims (size : Z) (dims : list Z) : result (list Z) :=
  if negb (forallb (λ d, -1 <=? d) dims) then Raise InvalidArgumentError
  else
    match length (filter (λ d, d = -1) dims) with
    | O => if decide (np_prod dims = size) then Ok dims
           else Raise InvalidArgumentError
    | S O =>
        let known := np_prod (filter (λ d, d ≠ -1) dims) in
        if decide (known = 0) then Raise InvalidArgumentError
        else if decide (size mod known = 0)
             then Ok (map (λ d, if decide (d = -1) then size / known else d) dims)
             else Raise InvalidArgumentError
    | _ => Raise InvalidArgumentError
    end.

(** ** Evaluated tensors: a shape and the row-major element buffer *)

Record ndarray (A : Type) := NdArray { shape : list Z; buffer : list A }.
Arguments NdArray {A} shape buffer.
Arguments shape {A} n.
Arguments buffer {A} n.

Definition well_shaped {A} (t : ndarray A) : Prop :=
  Forall (λ d, 0 <= d) (shape t) ∧ Z.of_nat (length (buffer t)) = np_prod (shape t).

(** Row-major offset of a multi-index, [None] when out of bounds. *)
Fixpoint ravel (dims idx : list Z) (acc : Z) : option Z :=
  match dims, idx with
  | [], [] => Some acc
  | d :: dims', i :: idx' =>
      if decide (0 <= i < d) then ravel dims' idx' (acc * d + i) else None
  | _, _ => None
  end.

Definition item {A} (t : ndarray A) (idx : list Z) : option A :=
  match ravel (shape t) idx 0 with
  | Some off => buffer t !! Z.to_nat off
  | None => None
  end.

(** [tf.reshape] evaluated: the buffer is kept as it is, the shape is
    replaced after the element-count check. *)
Definition tf_reshape_eval {A} (t : ndarray A) (dims : list Z) : result (ndarray A) :=
  shp ← reshape_dims (np_prod (shape t)) dims;
  Ok (NdArray shp (buffer t)).

(** The two shape arguments the constructor builds (lines 83-87 and 117). *)
Definition max_seq_len (nonfinite : Z) (n batch_size : Z) : Z :=
  cast_int32_truediv nonfinite n batch_size.

Definition rnn_input_dims (nonfinite : Z) (n batch_size features : Z) : list Z :=
  [batch_size; max_seq_len nonfinite n batch_size; features].

Definition rnn_output_dims (n features : Z) : list Z := [n; features].

(** ** Python values reaching the constructor *)

(** Values of the keyword arguments forwarded to the encoder. *)
Inductive pyval :=
  | PyInt (z : Z)
  | PyBool (b : bool)
  | PyStr (s : string)
  | PyList (l : list Z)
  | PyTuple (l : list Z).

(** [seq[0]] and [seq[-1]] on a tuple: [IndexError] when it is empty. *)
Definition py_first {A} (l : list A) : result A := of_option IndexError (head l).
Definition py_last {A} (l : list A) : result A := of_option IndexError (last l).

(** A recurrent cell class, as far as the graph depends on it: its name
    and the names of the tensors that make up one layer's state. *)
Record rnn_cell_class := RnnCellClass { cell_name : string; state_parts : list string }.

(** [rnn.BasicLSTMCell], the default: an [LSTMStateTuple(c, h)]. *)
Definition BasicLSTMCell : rnn_cell_class := RnnCellClass "BasicLSTMCell" ["c"; "h"]%string.

(** ** The symbolic graph *)

Inductive dtype := tf_float32 | tf_int32 | tf_bool.

(** int32 scalars of the graph and tensors of the graph.  A dimension
    given to [tf.reshape] is a scalar of the graph or a Python int. *)
Inductive Scalar :=
  | ScalarPlaceholder (dt : dtype) (name : string)
  | ShapeItem (t : Tensor) (i : nat)            (* tf.shape(t)[i] *)
  | CastInt32TrueDiv (a b : Scalar)             (* tf.cast(a / b, tf.int32) *)
  | PyDim (z : Z)
with Tensor :=
  | Placeholder (dt : dtype) (shp : list (option Z)) (name : string)
  | Conv2dNetwork (x : Tensor) (ob_shape : list Z) (ac_space : Z)
      (reuse : option bool) (kwargs : gmap string pyval)
  | Reshape (x : Tensor) (dims : list Scalar)
  | Concat (xs : list Tensor)                   (* axis=-1 *)
  | LstmOutput (x : Tensor) (time_length : Scalar) (cls : rnn_cell_class)
      (layers : list Z) (name : option string) (reuse : option bool)
  | LstmStateOut (x : Tensor) (time_length : Scalar) (cls : rnn_cell_class)
      (layers : list Z) (name : option string) (reuse : option bool)
      (layer part : nat)
  | DenseAacLogits (x : Tensor) (ac_space : Z) (reuse : option bool)
  | DenseAacValue (x : Tensor) (ac_space : Z) (reuse : option bool)
  | DenseAacSample (x : Tensor) (ac_space : Z) (reuse : option bool)
  | AuxHead (fn : string) (out : nat) (inputs : list Tensor) (ac_space : option Z)
      (kwargs : gmap string pyval).

(** A boolean scalar of the graph: [tf.placeholder_with_default]. *)
Inductive BoolTensor :=
  | PlaceholderWithDefault (default : bool) (shp : list Z) (name : string).

(** The state of a stack of recurrent layers: a tuple over the layers of
    the tuple of the state tensors of one layer. *)
Abbreviation rnn_state := (list (list Tensor)).

(** The contracts of the collaborators of which only the shape is known. *)
Record collaborators := Collaborators {
  (* static feature dimensions of the encoder output, after the batch
     dimension, from the observation shape, the action space and the
     hyperparameters *)
  conv_2d_features : list Z → Z → gmap string pyval → list Z;
  (* what casting a non-finite float64 to int32 gives *)
  nonfinite_cast : Z;
  (* evaluated shape of an output of an auxiliary head *)
  aux_head_shape : string → nat → list (list Z) → gmap string pyval → result (list Z);
  (* the graph collections once the collaborators have created their
     variables: [tf.get_collection(key, scope)], variables by name *)
  get_collection : string → option string → list string;
  (* [tf.get_variable_scope().name] *)
  variable_scope_name : string;
}.

(** *** Static shapes: [t.get_shape()] *)

Definition static_dim (d : Scalar) : option Z :=
  match d with
  | PyDim z => if decide (z = -1) then None else Some z
  | _ => None
  end.

(** Merging of two static dimensions that must agree. *)
Definition merge_dim (a b : option Z) : option (option Z) :=
  match a, b with
  | None, d | d, None => Some d
  | Some x, Some y => if decide (x = y) then Some (Some x) else None
  end.

Fixpoint merge_dims (s1 s2 : list (option Z)) : option (list (option Z)) :=
  match s1, s2 with
  | [], [] => Some []
  | a :: s1', b :: s2' =>
      d ← merge_dim a b; s ← merge_dims s1' s2'; Some (d :: s)
  | _, _ => None
  end.

Definition add_dim (a b : option Z) : option Z :=
  match a, b with
  | Some x, Some y => Some (x + y)
  | _, _ => None
  end.

(** Static shape of [tf.concat(_, axis=-1)] of two shapes: the leading
    dimensions merge, the last ones add up; [None] when they cannot. *)
Definition concat_last2 (s1 s2 : list (option Z)) : option (list (option Z)) :=
  match last s1, last s2 with
  | Some a, Some b =>
      lead ← merge_dims (removelast s1) (removelast s2);
      Some (lead ++ [add_dim a b])
  | _, _ => None
  end.

Definition concat_last (shapes : list (list (option Z))) : option (list (option Z)) :=
  match shapes with
  | [] => None
  | s :: rest => foldl (λ acc s', acc ← acc; concat_last2 acc s') (Some s) rest
  end.

Fixpoint mapM_option {A} (l : list (option A)) : option (list A) :=
  match l with
  | [] => Some []
  | o :: l' => a ← o; r ← mapM_option l'; Some (a :: r)
  end.

Section Graph.
Context (C : collaborators).

(** [None] is a shape of unknown rank. *)
Fixpoint get_shape (t : Tensor) : option (list (option Z)) :=
  match t with
  | Placeholder _ shp _ => Some shp
  | Conv2dNetwork x ob ac _ kw =>
      match get_shape x with
      | Some (b :: _) => Some (b :: map Some (conv_2d_features C ob ac kw))
      | _ => None
      end
  | Reshape _ dims => Some (map static_dim dims)
  | Concat xs => shapes ← mapM_option (map get_shape xs); concat_last shapes
  | LstmOutput x _ _ layers _ _ =>
      match get_shape x with
      | Some [b; t; _] => Some [b; t; last layers]
      | _ => None
      end
  | LstmStateOut x _ _ layers _ _ layer _ =>
      match get_shape x with
      | Some [b; _; _] => Some [b; layers !! layer]
      | _ => None
      end
  | DenseAacLogits x ac _ =>
      match get_shape x with
      | Some [m; _] => Some [m; Some ac]
      | _ => None
      end
  | DenseAacValue x _ _ | DenseAacSample x _ _ =>
      match get_shape x with
      | Some [m; _] => Some [m]
      | _ => None
      end
  | AuxHead _ _ _ _ _ => None
  end.

(** [t.get_shape().as_list()]: [ValueError] on an unknown rank. *)
Definition as_list (t : Tensor) : result (list (option Z)) :=
  of_option ValueError (get_shape t).

(** [np.prod] of static dimensions: a [None] among them is a
    [TypeError]. *)
Definition np_prod_static (dims : list (option Z)) : result Z :=
  ds ← of_option TypeError (mapM_option dims); Ok (np_prod ds).
End Graph.

(** *** Evaluation of the graph on shapes: [session.run]

    The encoder, the recurrent layers and the dense heads are opaque, so
    a tensor of the graph is evaluated to its shape.  The checks are
    those of TensorFlow's operations: a placeholder must be fed a shape
    that fits its static shape, [tf.reshape] must keep the element count,
    [tf.concat] needs equal leading dimensions.  The feeding of the
    initial-state placeholders of the recurrent layers is left out: the
    output shapes do not depend on it. *)

(** The values fed to the placeholders, by placeholder name: the shape of
    the array fed to a tensor placeholder, the integer fed to an int32
    scalar placeholder. *)
Record feed_dict := FeedDict {
  feed_arrays : gmap string (list Z);
  feed_ints : gmap string Z;
}.

(** A fed shape fits a placeholder when the ranks agree, no dimension is
    negative and every statically known dimension is the fed one. *)
Fixpoint is_compatible (static : list (option Z)) (fed : list Z) : bool :=
  match static, fed with
  | [], [] => true
  | d :: static', n :: fed' =>
      bool_decide (0 <= n)
      && match d with Some k => bool_decide (k = n) | None => true end
      && is_compatible static' fed'
  | _, _ => false
  end.

(** Evaluated shape of [tf.concat(_, axis=-1)]: equal leading dimensions,
    the last ones add up. *)
Definition concat_last_eval2 (s1 s2 : list Z) : result (list Z) :=
  match last s1, last s2 with
  | Some a, Some b =>
      if decide (removelast s1 = removelast s2)
      then Ok (removelast s1 ++ [a + b])
      else Raise InvalidArgumentError
  | _, _ => Raise InvalidArgumentError
  end.

Definition concat_last_eval (shapes : list (list Z)) : result (list Z) :=
  match shapes with
  | [] => Raise InvalidArgumentError
  | s :: rest => foldl (λ acc s', acc ← acc; concat_last_eval2 acc s') (Ok s) rest
  end.

Section Run.
Context (C : collaborators) (feed : feed_dict).

Fixpoint run (t : Tensor) : result (list Z) :=
  match t with
  | Placeholder _ shp name =>
      fed ← of_option InvalidArgumentError (feed_arrays feed !! name);
      if is_compatible shp fed then Ok fed else Raise ValueError
  | Conv2dNetwork x ob ac _ kw =>
      s ← run x;
      match s with
      | n :: _ => Ok (n :: conv_2d_features C ob ac kw)
      | [] => Raise InvalidArgumentError
      end
  | Reshape x dims =>
      s ← run x;
      ds ← sequence (map run_scalar dims);
      reshape_dims (np_prod s) ds
  | Concat xs =>
      shapes ← sequence (map run xs);
      concat_last_eval shapes
  | LstmOutput x time_length _ layers _ _ =>
      s ← run x;
      _ ← run_scalar time_length;
      units ← py_last layers;
      match s with
      | [b; t; _] => Ok [b; t; units]
      | _ => Raise InvalidArgumentError
      end
  | LstmStateOut x time_length _ layers _ _ layer _ =>
      s ← run x;
      _ ← run_scalar time_length;
      units ← of_option IndexError (layers !! layer);
      match s with
      | [b; _; _] => Ok [b; units]
      | _ => Raise InvalidArgumentError
      end
  | DenseAacLogits x ac _ =>
      s ← run x;
      match s with
      | [m; _] => Ok [m; ac]
      | _ => Raise InvalidArgumentError
      end
  | DenseAacValue x _ _ | DenseAacSample x _ _ =>
      s ← run x;
      match s with
      | [m; _] => Ok [m]
      | _ => Raise InvalidArgumentError
      end
  | AuxHead fn out inputs _ kw =>
      shapes ← sequence (map run inputs);
      aux_head_shape C fn out shapes kw
  end
with run_scalar (d : Scalar) : result Z :=
  match d with
  | ScalarPlaceholder _ name =>
      of_option InvalidArgumentError (feed_ints feed !! name)
  | ShapeItem t i =>
      s ← run t;
      of_option InvalidArgumentError (s !! i)
  | CastInt32TrueDiv a b =>
      x ← run_scalar a;
      y ← run_scalar b;
      Ok (cast_int32_truediv (nonfinite_cast C) x y)
  | PyDim z => Ok z
  end.
End Run.

(** ** Graph constructors used by the policy *)

(** [tf.placeholder(dtype, shape, name)]: a negative dimension is
    rejected when the placeholder is created. *)
Definition tf_placeholder (dt : dtype) (shp : list (option Z)) (name : string)
  : result Tensor :=
  if forallb (λ d, match d with Some k => bool_decide (0 <= k) | None => true end) shp
  then Ok (Placeholder dt shp name)
  else Raise ValueError.

(** [tf.concat(xs, axis=-1)]: rejected at construction when the static
    shapes cannot be concatenated. *)
Definition tf_concat (C : collaborators) (xs : list Tensor) : result Tensor :=
  match get_shape C (Concat xs) with
  | Some _ => Ok (Concat xs)
  | None => Raise ValueError
  end.

(** Modelled from the spec: [nested_placeholders] of
    btgym.algorithms.utils is missing; it declares one observation
    placeholder per modality of the observation mapping, of shape
    [[batch_dim] + shape]. *)
Definition nested_placeholders (ob_space : gmap string (list Z))
    (batch_dim : option Z) (name : string) : gmap string Tensor :=
  map_imap (λ key shp,
    Some (Placeholder tf_float32 (batch_dim :: map Some shp) (name +:+ "_" +:+ key)))
    ob_space.

(** Modelled from the spec: [conv_2d_network] of btgym.algorithms.nn_utils
    is missing; it is the opaque encoder of section 6, from a
    [[N, *external_shape]] batch to a [[N, H, W, C]] feature tensor. *)
Definition conv_2d_network (x : Tensor) (ob_shape : list Z) (ac_space : Z)
    (reuse : option bool) (kwargs : gmap string pyval) : Tensor :=
  Conv2dNetwork x ob_shape ac_space reuse kwargs.

(** Modelled from the spec: [lstm_network] of btgym.algorithms.nn_utils is
    missing; from a [[batch, time, feature]] input, a time-length tensor,
    a cell class and a tuple of per-layer unit counts it returns the
    output sequence, the initial-state placeholder structure, the
    final-state structure and the flattened placeholder list.  Each state
    tensor of a layer is sized by that layer's unit count. *)
Definition lstm_network (x : Tensor) (time_length : Scalar) (cls : rnn_cell_class)
    (layers : list Z) (name : option string) (reuse : option bool)
  : Tensor * rnn_state * rnn_state * list Tensor :=
  let scope := default "lstm"%string name in
  let init_state :=
    imap (λ i units,
      map (λ part, Placeholder tf_float32 [None; Some units]
                     (scope +:+ "_" +:+ pretty i +:+ "_" +:+ part +:+ "_pl"))
          (state_parts cls)) layers in
  let state_out :=
    imap (λ i _,
      imap (λ j _, LstmStateOut x time_length cls layers name reuse i j)
           (state_parts cls)) layers in
  (LstmOutput x time_length cls layers name reuse, init_state, state_out,
   concat init_state).

(** Modelled from the spec: [dense_aac_network] of
    btgym.algorithms.nn_utils is missing; from a [[M, feature]] input and
    the action-space size it returns logits [[M, action_space]], value
    [[M]] and sampled action [[M]]. *)
Definition dense_aac_network (x : Tensor) (ac_space : Z) (reuse : option bool)
  : Tensor * Tensor * Tensor :=
  (DenseAacLogits x ac_space reuse, DenseAacValue x ac_space reuse,
   DenseAacSample x ac_space reuse).

(** Modelled from the spec: the auxiliary heads of
    btgym.algorithms.nn_utils are missing; they are opaque. *)
Definition pixel_change_2d_estimator (ob_shape : list Z) (kwargs : gmap string pyval)
  : Tensor * Tensor * Tensor :=
  (AuxHead "pixel_change_2d_estimator" 0 [] None kwargs,
   AuxHead "pixel_change_2d_estimator" 1 [] None kwargs,
   AuxHead "pixel_change_2d_estimator" 2 [] None kwargs).

Definition duelling_pc_network (x : Tensor) (ac_space : Z) (kwargs : gmap string pyval)
  : Tensor :=
  AuxHead "duelling_pc_network" 0 [x] (Some ac_space) kwargs.

Definition dense_rp_network (x : Tensor) : Tensor :=
  AuxHead "dense_rp_network" 0 [x] None ∅.

(** A static dimension used as a Python int: [None] is a [TypeError]. *)
Definition py_dim (d : option Z) : result Scalar :=
  match d with
  | Some z => Ok (PyDim z)
  | None => Raise TypeError
  end.

(** [d[key]] on a dict. *)
Definition py_getitem {A} (d : gmap string A) (key : string) : result A :=
  of_option (KeyError key) (d !! key).

(** [key in list(d.keys())]. *)
Definition py_in_keys {A} (key : string) (d : gmap string A) : bool :=
  bool_decide (is_Some (d !! key)).

(** ** The policy object *)

(** A value found in an attribute the constructor probes but may not
    have set itself. *)
Inductive pyattr :=
  | AttrNone
  | AttrBoolTensor (t : BoolTensor)
  | AttrOther (repr : string).

(** An entry of the callback registry: a bound method of the policy. *)
Inductive callback_fn :=
  | BoundMethod (name : string).

(** The attributes assigned inside the [if False:] block (lines 128-205);
    they exist on the object only if the block has run. *)
Record off_policy_attrs := OffPolicyAttrs {
  off_lstm_state_pl_flatten : list Tensor;
  off_logits : Tensor;
  off_vf : Tensor;
  pc_change_state_in : Tensor;
  pc_change_last_state_in : Tensor;
  pc_target : Tensor;
  pc_batch_size : Scalar;
  pc_time_length : Scalar;
  pc_state_in : gmap string Tensor;
  pc_a_r_in : Tensor;
  pc_lstm_state_pl_flatten : list Tensor;
  pc_q : Tensor;
  vr_batch_size : Scalar;
  vr_time_length : Scalar;
  vr_state_in : gmap string Tensor;
  vr_a_r_in : Tensor;
  vr_lstm_state_pl_flatten : list Tensor;
  vr_value : Tensor;
  rp_batch_size : Scalar;
  rp_logits : Tensor;
}.

Record StackedLstmPolicy := {
  ob_space : gmap string (list Z);
  ac_space : Z;
  rp_sequence_size : Z;
  lstm_class : rnn_cell_class;
  lstm_layers : list Z;
  aux_estimate : bool;
  callback : gmap string callback_fn;
  on_state_in : gmap string Tensor;
  off_state_in : gmap string Tensor;
  rp_state_in : gmap string Tensor;
  on_a_r_in : Tensor;
  off_a_r_in : Tensor;
  on_batch_size : Scalar;
  on_time_length : Scalar;
  off_batch_size : Scalar;
  off_time_length : Scalar;
  on_lstm_1_init_state : rnn_state;
  on_lstm_1_state_out : rnn_state;
  on_lstm_1_state_pl_flatten : list Tensor;
  on_lstm_2_init_state : rnn_state;
  on_lstm_2_state_out : rnn_state;
  on_lstm_2_state_pl_flatten : list Tensor;
  on_logits : Tensor;
  on_vf : Tensor;
  on_sample : Tensor;
  on_lstm_init_state : rnn_state * rnn_state;
  on_lstm_state_out : rnn_state * rnn_state;
  on_lstm_state_pl_flatten : list Tensor;
  off_policy : option off_policy_attrs;
  train_phase : pyattr;
  update_ops : list string;
  var_list : list string;
}.

(** The local variables of the on-policy part of the constructor (lines
    79-117) that the object does not keep. *)
Record on_policy_locals := {
  conv_kwargs : gmap string pyval;        (* kwargs given to the encoder *)
  on_aac_x_conv : Tensor;                 (* on_aac_x of line 79 *)
  x_shape_dynamic_0 : Scalar;             (* x_shape_dynamic[0], line 82 *)
  max_seq_len_t : Scalar;                 (* max_seq_len, line 83 *)
  on_a_r_in_3d : Tensor;                  (* on_a_r_in of line 86 *)
  on_aac_x_3d : Tensor;                   (* on_aac_x of line 87 *)
  on_stage2_1_input : list Tensor;        (* line 90 *)
  on_aac_x_stage1 : Tensor;               (* on_aac_x of line 91 *)
  on_lstm_1 : Tensor * rnn_state * rnn_state * list Tensor;   (* line 94 *)
  on_stage2_2_input : list Tensor;        (* lines 99-107 *)
  on_aac_x_stage2 : Tensor;               (* on_aac_x of line 109 *)
  on_lstm_2 : Tensor * rnn_state * rnn_state * list Tensor;   (* line 111 *)
  on_x_lstm_out : Tensor;                 (* line 117 *)
}.

(** The hard-coded 1D geometry of lines 42-51. *)
Definition plug_in_1d : gmap string pyval :=
  list_to_map [
    ("conv_2d_filter_size", PyList [3; 1]);
    ("conv_2d_stride", PyList [2; 1]);
    ("pc_estimator_stride", PyList [2; 1]);
    ("duell_pc_x_inner_shape", PyTuple [6; 1; 32]);
    ("duell_pc_filter_size", PyTuple [4; 1]);
    ("duell_pc_stride", PyTuple [2; 1])
  ]%string.

(** [kwargs.update(d)]: the entries of [d] replace those of [kwargs]. *)
Definition dict_update {A} (kwargs d : gmap string A) : gmap string A := d ∪ kwargs.

Section Constructor.
Context (C : collaborators).

(** Lines 79-87 and their copies at lines 131-139: encode, then
    reshape the encoded batch and the action-reward batch to
    [[batch, time, features]]. *)
Definition encode_and_reshape (state_in : gmap string Tensor)
    (a_r_in : Tensor) (batch_size : Scalar)
    (ob_space : gmap string (list Z)) (ac_space : Z)
    (reuse : option bool) (kwargs : gmap string pyval)
  : result (Tensor * Scalar * Scalar * Tensor * Tensor) :=
  ext_in ← py_getitem state_in "external";
  ext_shape ← py_getitem ob_space "external";
  let aac_x := conv_2d_network ext_in ext_shape ac_space reuse kwargs in
  let x_shape_dynamic_0 := ShapeItem aac_x 0 in
  let max_seq_len := CastInt32TrueDiv x_shape_dynamic_0 batch_size in
  x_shape_static ← as_list C aac_x;
  let a_r_3d := Reshape a_r_in [batch_size; max_seq_len; PyDim (ac_space + 1)] in
  depth ← np_prod_static (tail x_shape_static);
  let aac_x_3d := Reshape aac_x [batch_size; max_seq_len; PyDim depth] in
  Ok (aac_x, x_shape_dynamic_0, max_seq_len, a_r_3d, aac_x_3d).

(** Lines 101-107 and 143-149: the optional "internal" modality,
    reshaped and appended to the inputs of a stage. *)
Definition append_internal (state_in : gmap string Tensor)
    (batch_size max_seq_len : Scalar) (stage_input : list Tensor)
  : result (list Tensor) :=
  if py_in_keys "internal" state_in then
    int_in ← py_getitem state_in "internal";
    x_int_shape_static ← as_list C int_in;
    depth ← np_prod_static (tail x_int_shape_static);
    let x_int := Reshape int_in [batch_size; max_seq_len; PyDim depth] in
    Ok (stage_input ++ [x_int])
  else Ok stage_input.

(** Lines 116-117 and 157-158: back to [[batch * time, features]]. *)
Definition reshape_back (x_lstm_out : Tensor) (x_shape_dynamic_0 : Scalar)
  : result Tensor :=
  x_shape_static ← as_list C x_lstm_out;
  d ← py_last x_shape_static;
  depth ← py_dim d;
  Ok (Reshape x_lstm_out [x_shape_dynamic_0; depth]).

(** Lines 79-117. *)
Definition on_policy_network (state_in : gmap string Tensor) (a_r_in : Tensor)
    (batch_size time_length : Scalar)
    (ob_space : gmap string (list Z)) (ac_space : Z)
    (lstm_class : rnn_cell_class) (lstm_layers : list Z)
    (kwargs : gmap string pyval) : result on_policy_locals :=
  '(conv_x, dyn0, msl, a_r_3d, x_3d) ←
    encode_and_reshape state_in a_r_in batch_size ob_space ac_space None kwargs;
  let stage2_1_input := [x_3d; a_r_3d] in
  lstm_1_in ← tf_concat C stage2_1_input;
  units_1 ← py_first lstm_layers;
  let lstm_1 := lstm_network lstm_1_in time_length lstm_class [units_1]
                  (Some "lstm_1"%string) None in
  let on_x_lstm_1_out := lstm_1.1.1.1 in
  let stage2_2_input := [on_x_lstm_1_out] ++ stage2_1_input in
  stage2_2_input ← append_internal state_in batch_size msl stage2_2_input;
  lstm_2_in ← tf_concat C stage2_2_input;
  units_2 ← py_last lstm_layers;
  let lstm_2 := lstm_network lstm_2_in time_length lstm_class [units_2]
                  (Some "lstm_2"%string) None in
  let on_x_lstm_2_out := lstm_2.1.1.1 in
  x_lstm_out ← reshape_back on_x_lstm_2_out dyn0;
  Ok {| conv_kwargs := kwargs;
        on_aac_x_conv := conv_x;
        x_shape_dynamic_0 := dyn0;
        max_seq_len_t := msl;
        on_a_r_in_3d := a_r_3d;
        on_aac_x_3d := x_3d;
        on_stage2_1_input := stage2_1_input;
        on_aac_x_stage1 := lstm_1_in;
        on_lstm_1 := lstm_1;
        on_stage2_2_input := stage2_2_input;
        on_aac_x_stage2 := lstm_2_in;
        on_lstm_2 := lstm_2;
        on_x_lstm_out := x_lstm_out |}.

(** Lines 130-205, the body of the [if False:] block.  A call that
    passes [reuse=True] next to [**kwargs] is a [TypeError] when
    [kwargs] has a "reuse" entry. *)
Definition off_policy_network
    (off_state_in rp_state_in : gmap string Tensor) (off_a_r_in : Tensor)
    (off_batch_size off_time_length : Scalar)
    (ob_space : gmap string (list Z)) (ac_space rp_sequence_size : Z)
    (lstm_class : rnn_cell_class) (lstm_layers : list Z)
    (kwargs : gmap string pyval) : result off_policy_attrs :=
  _ ← (if py_in_keys "reuse" kwargs then Raise TypeError else Ok ());
  '(_, dyn0, msl, off_a_r_3d, off_aac_x) ←
    encode_and_reshape off_state_in off_a_r_in off_batch_size ob_space ac_space
      (Some true) kwargs;
  let off_stage2_input := [off_aac_x; off_a_r_3d] in
  off_stage2_input ← append_internal off_state_in off_batch_size msl off_stage2_input;
  off_aac_x ← tf_concat C off_stage2_input;
  let lstm := lstm_network off_aac_x off_time_length lstm_class lstm_layers
                None (Some true) in
  let off_pl_flatten := lstm.2 in
  off_x_lstm_out ← reshape_back lstm.1.1.1 dyn0;
  let '(logits, vf, _) := dense_aac_network off_x_lstm_out ac_space (Some true) in
  ext_shape ← py_getitem ob_space "external";
  let '(pc_in, pc_last_in, pc_tgt) := pixel_change_2d_estimator ext_shape kwargs in
  let pc_x := off_x_lstm_out in
  let pc_q := duelling_pc_network pc_x ac_space kwargs in
  let rp_batch_size := ScalarPlaceholder tf_int32 "rp_batch_size" in
  rp_in ← py_getitem rp_state_in "external";
  let rp_x := conv_2d_network rp_in ext_shape ac_space (Some true) kwargs in
  rp_x_shape_static ← as_list C rp_x;
  depth ← np_prod_static (tail rp_x_shape_static);
  let rp_x := Reshape rp_x [rp_batch_size; PyDim (depth * (rp_sequence_size - 1))] in
  Ok {| off_lstm_state_pl_flatten := off_pl_flatten;
        off_logits := logits;
        off_vf := vf;
        pc_change_state_in := pc_in;
        pc_change_last_state_in := pc_last_in;
        pc_target := pc_tgt;
        pc_batch_size := off_batch_size;
        pc_time_length := off_time_length;
        pc_state_in := off_state_in;
        pc_a_r_in := off_a_r_in;
        pc_lstm_state_pl_flatten := off_pl_flatten;
        pc_q := pc_q;
        vr_batch_size := off_batch_size;
        vr_time_length := off_time_length;
        vr_state_in := off_state_in;
        vr_a_r_in := off_a_r_in;
        vr_lstm_state_pl_flatten := off_pl_flatten;
        vr_value := vf;
        rp_batch_size := rp_batch_size;
        rp_logits := dense_rp_network rp_x |}.
End Constructor.

(** Defaults of the keyword parameters (lines 23-25). *)
Definition default_lstm_class : rnn_cell_class := BasicLSTMCell.
Definition default_lstm_layers : list Z := [64; 256].
Definition default_aux_estimate : bool := false.

Section Init.
Context (C : collaborators).

(** [StackedLstmPolicy.__init__] together with the local variables of
    its on-policy part.  [self_train_phase] is the attribute
    [train_phase] of [self] when the constructor starts: [None] when
    the object has no such attribute. *)
Definition init_frame (self_train_phase : option pyattr)
    (ob_space : gmap string (list Z)) (ac_space rp_sequence_size : Z)
    (lstm_class : rnn_cell_class) (lstm_layers : list Z) (aux_estimate : bool)
    (kwargs : gmap string pyval)
  : result (StackedLstmPolicy * on_policy_locals) :=
  (* 1D plug-in: *)
  let kwargs := dict_update kwargs plug_in_1d in
  let callback : gmap string callback_fn := ∅ in
  (* Placeholders for obs. state input: *)
  let on_state_in := nested_placeholders ob_space None "on_policy_state_in" in
  let off_state_in := nested_placeholders ob_space None "off_policy_state_in_pl" in
  let rp_state_in := nested_placeholders ob_space None "rp_state_in" in
  (* Placeholders for concatenated action [one-hot] and reward [scalar]: *)
  on_a_r_in ← tf_placeholder tf_float32 [None; Some (ac_space + 1)]
                "on_policy_action_reward_in_pl";
  off_a_r_in ← tf_placeholder tf_float32 [None; Some (ac_space + 1)]
                 "off_policy_action_reward_in_pl";
  (* Placeholders for rnn batch and time-step dimensions: *)
  let on_batch_size := ScalarPlaceholder tf_int32 "on_policy_batch_size" in
  let on_time_length := ScalarPlaceholder tf_int32 "on_policy_sequence_size" in
  let off_batch_size := ScalarPlaceholder tf_int32 "off_policy_batch_size" in
  let off_time_length := ScalarPlaceholder tf_int32 "off_policy_sequence_size" in
  (* Base on-policy AAC network: *)
  on ← on_policy_network C on_state_in on_a_r_in on_batch_size on_time_length
         ob_space ac_space lstm_class lstm_layers kwargs;
  let '(_, lstm_1_init_state, lstm_1_state_out, lstm_1_state_pl_flatten) := on_lstm_1 on in
  let '(_, lstm_2_init_state, lstm_2_state_out, lstm_2_state_pl_flatten) := on_lstm_2 on in
  (* Aac policy and value outputs and action-sampling function: *)
  let '(logits, vf, sample) := dense_aac_network (on_x_lstm_out on) ac_space None in
  (* Temp. disable *)
  off ← (if false
         then
           attrs ← off_policy_network C off_state_in rp_state_in off_a_r_in
                     off_batch_size off_time_length ob_space ac_space
                     rp_sequence_size lstm_class lstm_layers kwargs;
           Ok (Some attrs)
         else Ok None);
  (* Batch-norm related: *)
  let train_phase :=
    match self_train_phase with
    | Some v => v
    | None => AttrBoolTensor (PlaceholderWithDefault false [] "train_phase_flag_pl")
    end in
  let scope := variable_scope_name C in
  let moving_var_list :=
    get_collection C "GLOBAL_VARIABLES" (Some (scope +:+ ".*moving.*")) in
  let renorm_var_list :=
    get_collection C "GLOBAL_VARIABLES" (Some (scope +:+ ".*renorm.*")) in
  let var_list := get_collection C "TRAINABLE_VARIABLES" (Some scope) in
  (* Callbacks: *)
  let callback :=
    if aux_estimate
    then <["pixel_change"%string := BoundMethod "get_pc_target"]> callback
    else callback in
  Ok ({| ob_space := ob_space;
         ac_space := ac_space;
         rp_sequence_size := rp_sequence_size;
         lstm_class := lstm_class;
         lstm_layers := lstm_layers;
         aux_estimate := aux_estimate;
         callback := callback;
         on_state_in := on_state_in;
         off_state_in := off_state_in;
         rp_state_in := rp_state_in;
         on_a_r_in := on_a_r_in;
         off_a_r_in := off_a_r_in;
         on_batch_size := on_batch_size;
         on_time_length := on_time_length;
         off_batch_size := off_batch_size;
         off_time_length := off_time_length;
         on_lstm_1_init_state := lstm_1_init_state;
         on_lstm_1_state_out := lstm_1_state_out;
         on_lstm_1_state_pl_flatten := lstm_1_state_pl_flatten;
         on_lstm_2_init_state := lstm_2_init_state;
         on_lstm_2_state_out := lstm_2_state_out;
         on_lstm_2_state_pl_flatten := lstm_2_state_pl_flatten;
         on_logits := logits;
         on_vf := vf;
         on_sample := sample;
         on_lstm_init_state := (lstm_1_init_state, lstm_2_init_state);
         on_lstm_state_out := (lstm_1_state_out, lstm_2_state_out);
         on_lstm_state_pl_flatten := lstm_1_state_pl_flatten ++ lstm_2_state_pl_flatten;
         off_policy := off;
         train_phase := train_phase;
         update_ops := get_collection C "UPDATE_OPS" None;
         var_list := var_list ++ (moving_var_list ++ renorm_var_list) |}, on).

Definition __init__ (self_train_phase : option pyattr)
    (ob_space : gmap string (list Z)) (ac_space rp_sequence_size : Z)
    (lstm_class : rnn_cell_class) (lstm_layers : list Z) (aux_estimate : bool)
    (kwargs : gmap string pyval) : result StackedLstmPolicy :=
  '(self, _) ← init_frame self_train_phase ob_space ac_space rp_sequence_size
                 lstm_class lstm_layers aux_estimate kwargs;
  Ok self.
End Init.

(** ** Observations on the assembled graph *)

(** Statically known width of the feature (last) axis of a tensor. *)
Definition feature_width (C : collaborators) (t : Tensor) : option Z :=
  s ← get_shape C t; d ← last s; d.

(** The recurrent-layer factory calls a tensor depends on, outermost
    first: the scope name and the tuple of unit counts of each call. *)
Fixpoint lstm_calls (t : Tensor) : list (option string * list Z) :=
  match t with
  | Placeholder _ _ _ => []
  | Conv2dNetwork x _ _ _ _ => lstm_calls x
  | Reshape x dims => lstm_calls x ++ concat (map lstm_calls_scalar dims)
  | Concat xs => concat (map lstm_calls xs)
  | LstmOutput x tl _ layers name _ =>
      (name, layers) :: lstm_calls x ++ lstm_calls_scalar tl
  | LstmStateOut x tl _ layers name _ _ _ =>
      (name, layers) :: lstm_calls x ++ lstm_calls_scalar tl
  | DenseAacLogits x _ _ | DenseAacValue x _ _ | DenseAacSample x _ _ => lstm_calls x
  | AuxHead _ _ inputs _ _ => concat (map lstm_calls inputs)
  end
with lstm_calls_scalar (d : Scalar) : list (option string * list Z) :=
  match d with
  | ScalarPlaceholder _ _ | PyDim _ => []
  | ShapeItem t _ => lstm_calls t
  | CastInt32TrueDiv a b => lstm_calls_scalar a ++ lstm_calls_scalar b
  end.

(** Whether a tensor depends on an operation that only the off-policy
    and auxiliary block creates: a collaborator called with [reuse=True]
    or an auxiliary head. *)
Definition is_reuse (reuse : option bool) : bool :=
  match reuse with Some true => true | _ => false end.

Fixpoint uses_off_policy_ops (t : Tensor) : bool :=
  match t with
  | Placeholder _ _ _ => false
  | Conv2dNetwork x _ _ reuse _ => is_reuse reuse || uses_off_policy_ops x
  | Reshape x dims =>
      uses_off_policy_ops x || existsb uses_off_policy_ops_scalar dims
  | Concat xs => existsb uses_off_policy_ops xs
  | LstmOutput x tl _ _ _ reuse | LstmStateOut x tl _ _ _ reuse _ _ =>
      is_reuse reuse || uses_off_policy_ops x || uses_off_policy_ops_scalar tl
  | DenseAacLogits x _ reuse | DenseAacValue x _ reuse | DenseAacSample x _ reuse =>
      is_reuse reuse || uses_off_policy_ops x
  | AuxHead _ _ _ _ _ => true
  end
with uses_off_policy_ops_scalar (d : Scalar) : bool :=
  match d with
  | ScalarPlaceholder _ name => bool_decide (name = "rp_batch_size"%string)
  | PyDim _ => false
  | ShapeItem t _ => uses_off_policy_ops t
  | CastInt32TrueDiv a b => uses_off_policy_ops_scalar a || uses_off_policy_ops_scalar b
  end.

(** The outputs of the off-policy and auxiliary block, as attributes of
    the object: [None] when the attribute does not exist. *)
Definition getattr_off {A} (f : off_policy_attrs → A) (self : StackedLstmPolicy)
  : option A := f <$> off_policy self.

(** ** The scenario of the specification

    [action_space = 4], [lstm_layers = (8, 16)], external observations of
    shape [[10, 10, 3]], no "internal" modality; an encoder with a
    [[5, 1, 32]] feature map stands for the collaborator. *)

Definition scenario_collaborators : collaborators :=
  {| conv_2d_features := λ _ _ _, [5; 1; 32];
     nonfinite_cast := -2147483648;
     aux_head_shape := λ _ _ _ _, Raise InvalidArgumentError;
     get_collection := λ _ _, [];
     variable_scope_name := "global" |}.

Definition scenario_ob_space : gmap string (list Z) :=
  {[ "external"%string := [10; 10; 3] ]}.

(** A batch of [n] steps fed with batch size [b] and time length [tl]. *)
Definition scenario_feed (n b tl : Z) : feed_dict :=
  {| feed_arrays :=
       list_to_map [("on_policy_state_in_external"%string, [n; 10; 10; 3]);
                    ("on_policy_action_reward_in_pl"%string, [n; 5])];
     feed_ints :=
       list_to_map [("on_policy_batch_size"%string, b);
                    ("on_policy_sequence_size"%string, tl)] |}.


(** The construction of the scenario: the policy and the locals. *)
Definition scenario_built : result (StackedLstmPolicy * on_policy_locals) :=
  init_frame scenario_collaborators None scenario_ob_space 4 4 BasicLSTMCell [8; 16]
    false ∅.

Definition scenario_policy : result StackedLstmPolicy :=
  __init__ scenario_collaborators None scenario_ob_space 4 4 BasicLSTMCell [8; 16]
    false ∅.

(** Keyword arguments of a caller who tries to set the stride. *)
Definition scenario_kwargs : gmap string pyval :=
  list_to_map [("conv_2d_stride", PyList [9; 9]); ("conv_2d_num_filters", PyInt 64)]%string.

(** A feed that also has the "internal" observations, with [n] steps of
    observations and [m] steps of action-reward vectors. *)
Definition scenario_feed_internal (n m b tl : Z) : feed_dict :=
  {| feed_arrays :=
       list_to_map [("on_policy_state_in_external"%string, [n; 10; 10; 3]);
                    ("on_policy_state_in_internal"%string, [n; 5]);
                    ("on_policy_action_reward_in_pl"%string, [m; 5])];
     feed_ints :=
       list_to_map [("on_policy_batch_size"%string, b);
                    ("on_policy_sequence_size"%string, tl)] |}.

(** * Properties *)

(** ** The reshape contract *)

Lemma quot_exact (b t : Z) : b ≠ 0 → Z.quot (b * t) b = t.
Proof. intros Hb. rewrite Z.mul_comm. by apply Z.quot_mul. Qed.

Lemma max_seq_len_exact (c b t : Z) : b ≠ 0 → max_seq_len c (b * t) b = t.
Proof.
  intros Hb. unfold max_seq_len, cast_int32_truediv.
  case_decide; [done | by apply quot_exact].
Qed.

(** For a positive batch size the truncated true division is the floor
    division of the non-negative leading dimension. *)
Lemma max_seq_len_div (c n b : Z) : 0 <= n → 0 < b → max_seq_len c n b = n / b.
Proof.
  intros Hn Hb. unfold max_seq_len, cast_int32_truediv.
  case_decide; [lia | apply Z.quot_div_nonneg; lia].
Qed.

(** A shape without [-1] is accepted exactly when it keeps the element
    count. *)
Lemma reshape_dims_plain (size : Z) (dims : list Z) :
  Forall (λ d, 0 <= d) dims → np_prod dims = size → reshape_dims size dims = Ok dims.
Proof.
  intros Hpos Hsize. unfold reshape_dims.
  assert (forallb (λ d, -1 <=? d) dims = true) as ->.
  { apply forallb_forall. intros d Hd%list_elem_of_In.
    rewrite Forall_forall in Hpos. specialize (Hpos d Hd). lia. }
  assert (filter (λ d, d = -1) dims = []) as ->.
  { clear Hsize. induction Hpos as [|d l Hd _ IH]; [done|].
    rewrite filter_cons. case_decide; [lia | exact IH]. }
  cbn. by rewrite decide_True.
Qed.

Ltac decide_lia :=
  repeat first [ rewrite decide_True by lia | rewrite decide_False by lia ].

Lemma reshape_dims_mismatch (size : Z) (dims : list Z) :
  Forall (λ d, 0 <= d) dims → np_prod dims ≠ size →
  reshape_dims size dims = Raise InvalidArgumentError.
Proof.
  intros Hpos Hsize. unfold reshape_dims.
  assert (filter (λ d, d = -1) dims = []) as ->.
  { clear Hsize. induction Hpos as [|d l Hd _ IH]; [done|].
    rewrite filter_cons. case_decide; [lia | exact IH]. }
  destruct (negb _); [done|]. cbn. by rewrite decide_False.
Qed.

Lemma reshape_dims_negative (size : Z) (dims : list Z) :
  Exists (λ d, d < -1) dims → reshape_dims size dims = Raise InvalidArgumentError.
Proof.
  intros Hneg. unfold reshape_dims.
  assert (forallb (λ d, -1 <=? d) dims = false) as ->; [|done].
  induction Hneg as [d l Hd|d l _ IH]; cbn.
  - destruct (-1 <=? d) eqn:E; [lia | done].
  - rewrite IH. apply andb_false_r.
Qed.

(** The leading dimension is not a multiple of the batch size: the
    reshape to [[batch_size, max_seq_len, features]] is rejected. *)
Lemma reshape_dims_not_multiple (c n b f : Z) :
  0 <= n → 0 < f → ¬ (b | n) →
  reshape_dims (n * f) (rnn_input_dims c n b f) = Raise InvalidArgumentError.
Proof.
  intros Hn Hf Hdiv. unfold rnn_input_dims, max_seq_len, cast_int32_truediv.
  destruct (decide (b = 0)) as [->|Hb0].
  - assert (n ≠ 0) by (intros ->; apply Hdiv; exists 0; lia).
    destruct (decide (c < -1)) as [Hc|Hc].
    { apply reshape_dims_negative. by do 2 constructor. }
    destruct (decide (c = -1)) as [->|Hc1].
    + unfold reshape_dims. cbn. destruct (-1 <=? f) eqn:E; [|lia]. cbn.
      decide_lia. cbn. by decide_lia.
    + apply reshape_dims_mismatch; [repeat constructor; lia | cbn; nia].
  - destruct (decide (b < 0)) as [Hneg|Hpos].
    + destruct (decide (b = -1)) as [->|Hb1].
      { exfalso. apply Hdiv. exists (- n). lia. }
      apply reshape_dims_negative. constructor. lia.
    + assert (0 < b) as Hb by lia.
      assert (n `quot` b = n / b) as -> by (apply Z.quot_div_nonneg; lia).
      assert (0 <= n / b) by (apply Z.div_pos; lia).
      assert (b * (n / b) ≠ n) as Hne.
      { intros Heq. apply Hdiv. exists (n / b). lia. }
      apply reshape_dims_mismatch; [repeat constructor; lia | cbn; nia].
Qed.

(** C2: for a valid batch size, time length and feature width, with
    [N = batch_size * time_length], reshaping an evaluated [[N, F]]
    tensor with the shape argument of lines 86-87 gives a
    [[batch_size, time_length, F]] tensor, reshaping that one with the
    shape argument of line 117 gives the original tensor back, the
    element buffer is never touched, a buffer of the right length stays
    one, and element [[i, j, k]] of the 3-D tensor is element
    [[i * time_length + j, k]] of the 2-D one. *)
Theorem reshape_round_trip {A} (c : Z) (t : ndarray A) (b tl f : Z) :
  0 < b → 0 <= tl → 0 <= f → shape t = [b * tl; f] →
  ∃ t3 : ndarray A,
    tf_reshape_eval t (rnn_input_dims c (b * tl) b f) = Ok t3
    ∧ shape t3 = [b; tl; f]
    ∧ buffer t3 = buffer t
    ∧ tf_reshape_eval t3 (rnn_output_dims (b * tl) f) = Ok t
    ∧ (well_shaped t → well_shaped t3)
    ∧ ∀ i j k, 0 <= i < b → 0 <= j < tl → 0 <= k < f →
        item t3 [i; j; k] = item t [i * tl + j; k].
Proof.
  intros Hb Htl Hf Hshape. destruct t as [shp buf]. cbn in Hshape. subst shp.
  exists (NdArray [b; tl; f] buf).
  unfold tf_reshape_eval, rnn_input_dims, rnn_output_dims. cbn [shape buffer].
  rewrite max_seq_len_exact by lia.
  rewrite (reshape_dims_plain _ [b; tl; f]);
    [| repeat constructor; lia | cbn; lia].
  rewrite (reshape_dims_plain _ [b * tl; f]);
    [| repeat constructor; nia | cbn; lia].
  split_and!; try done.
  { intros [_ Hlen]. cbn in *. split; [repeat constructor; lia | cbn; lia]. }
  intros i j k Hi Hj Hk. unfold item. cbn [shape buffer ravel].
  assert (0 <= i * tl + j < b * tl) by nia.
  decide_lia. f_equal; lia.
Qed.

Lemma reshape_round_trip_witness :
  ∃ t3 : ndarray nat,
    tf_reshape_eval (NdArray [6; 2] (seq 0 12)) (rnn_input_dims 0 (2 * 3) 2 2) = Ok t3
    ∧ shape t3 = [2; 3; 2]
    ∧ buffer t3 = seq 0 12
    ∧ tf_reshape_eval t3 (rnn_output_dims (2 * 3) 2) = Ok (NdArray [6; 2] (seq 0 12))
    ∧ (well_shaped (NdArray [6; 2] (seq 0 12)) → well_shaped t3)
    ∧ ∀ i j k, 0 <= i < 2 → 0 <= j < 3 → 0 <= k < 2 →
        item t3 [i; j; k] = item (NdArray [6; 2] (seq 0 12)) [i * 3 + j; k].
Proof.
  apply (reshape_round_trip 0 (NdArray [6; 2] (seq 0 12)) 2 3 2);
    [lia | lia | lia | reflexivity].
Defined.

(** ** The constructor, step by step *)

Lemma mapM_option_Some {A} (l : list A) : mapM_option (map Some l) = Some l.
Proof. induction l as [|a l IH]; [done|]. cbn. by rewrite IH. Qed.

Lemma np_prod_static_Some (l : list Z) : np_prod_static (map Some l) = Ok (np_prod l).
Proof. unfold np_prod_static. by rewrite mapM_option_Some. Qed.

Lemma lookup_nested_placeholders ob bd name key :
  nested_placeholders ob bd name !! key =
  (λ shp, Placeholder tf_float32 (bd :: map Some shp) (name +:+ "_" +:+ key)) <$> ob !! key.
Proof.
  unfold nested_placeholders. rewrite map_lookup_imap.
  by destruct (ob !! key).
Qed.

Lemma tf_concat_ok C xs s : get_shape C (Concat xs) = Some s → tf_concat C xs = Ok (Concat xs).
Proof. unfold tf_concat. by intros ->. Qed.

Lemma reshape_back_ok C x dyn0 s units :
  get_shape C x = Some s → last s = Some (Some units) →
  reshape_back C x dyn0 = Ok (Reshape x [dyn0; PyDim units]).
Proof. unfold reshape_back, as_list, py_last. intros -> Hl. cbn. by rewrite Hl. Qed.

Section OnPolicy.
Context (C : collaborators).
Context (ob_space : gmap string (list Z)) (ac_space : Z).
Context (lstm_class : rnn_cell_class) (lstm_layers : list Z).
Context (kwargs : gmap string pyval).
Context (name : string) (a_r_in : Tensor) (bs_name : string) (time_length : Scalar).
Context (ext : list Z) (units_1 units_2 : Z).

Let batch_size := ScalarPlaceholder tf_int32 bs_name.

(** The tensors the on-policy part builds, written out. *)
Let state_in := nested_placeholders ob_space None name.
Let ext_in := Placeholder tf_float32 (None :: map Some ext) (name +:+ "_" +:+ "external").
Let conv reuse := Conv2dNetwork ext_in ext ac_space reuse kwargs.
Let msl reuse := CastInt32TrueDiv (ShapeItem (conv reuse) 0) batch_size.
Let depth := np_prod (conv_2d_features C ext ac_space kwargs).
Let a_r_3d reuse := Reshape a_r_in [batch_size; msl reuse; PyDim (ac_space + 1)].
Let x_3d reuse := Reshape (conv reuse) [batch_size; msl reuse; PyDim depth].
Let x_int reuse :=
  match ob_space !! "internal" with
  | Some shp =>
      [Reshape (Placeholder tf_float32 (None :: map Some shp) (name +:+ "_" +:+ "internal"))
         [batch_size; msl reuse; PyDim (np_prod shp)]]
  | None => []
  end.
Let lstm_1 :=
  lstm_network (Concat [x_3d None; a_r_3d None]) time_length lstm_class [units_1]
    (Some "lstm_1"%string) None.
Let stage2 := [lstm_1.1.1.1; x_3d None; a_r_3d None] ++ x_int None.
Let lstm_2 :=
  lstm_network (Concat stage2) time_length lstm_class [units_2]
    (Some "lstm_2"%string) None.

Lemma encode_and_reshape_ok reuse :
  ob_space !! "external" = Some ext →
  encode_and_reshape C state_in a_r_in batch_size ob_space ac_space reuse kwargs
  = Ok (conv reuse, ShapeItem (conv reuse) 0, msl reuse, a_r_3d reuse, x_3d reuse).
Proof.
  intros Hext. unfold encode_and_reshape, py_getitem, state_in.
  rewrite lookup_nested_placeholders, Hext. cbn.
  by rewrite np_prod_static_Some.
Qed.

Lemma append_internal_ok reuse (stage : list Tensor) :
  append_internal C state_in batch_size (msl reuse) stage = Ok (stage ++ x_int reuse).
Proof.
  unfold append_internal, py_in_keys, py_getitem, state_in, x_int.
  rewrite lookup_nested_placeholders.
  destruct (ob_space !! "internal") as [shp|]; cbn.
  - by rewrite np_prod_static_Some.
  - by rewrite app_nil_r.
Qed.

Lemma get_shape_stage1 :
  get_shape C (Concat [x_3d None; a_r_3d None])
  = Some [None; None; add_dim (static_dim (PyDim depth)) (static_dim (PyDim (ac_space + 1)))].
Proof. reflexivity. Qed.

Lemma get_shape_lstm_1 : get_shape C lstm_1.1.1.1 = Some [None; None; Some units_1].
Proof. reflexivity. Qed.

Lemma get_shape_stage2 :
  get_shape C (Concat stage2)
  = Some [None; None;
          foldl add_dim
            (add_dim (add_dim (Some units_1) (static_dim (PyDim depth)))
               (static_dim (PyDim (ac_space + 1))))
            (feature_width C <$> x_int None)].
Proof.
  clear lstm_2. unfold stage2, x_int. destruct (ob_space !! "internal"); reflexivity.
Qed.

Lemma get_shape_lstm_2 : get_shape C lstm_2.1.1.1 = Some [None; None; Some units_2].
Proof.
  change (get_shape C lstm_2.1.1.1) with
    (match get_shape C (Concat stage2) with
     | Some [b; t; _] => Some [b; t; last [units_2]]
     | _ => None
     end).
  by rewrite get_shape_stage2.
Qed.

Lemma on_policy_network_ok :
  ob_space !! "external" = Some ext →
  head lstm_layers = Some units_1 →
  last lstm_layers = Some units_2 →
  on_policy_network C state_in a_r_in batch_size time_length ob_space ac_space
    lstm_class lstm_layers kwargs
  = Ok {| conv_kwargs := kwargs;
          on_aac_x_conv := conv None;
          x_shape_dynamic_0 := ShapeItem (conv None) 0;
          max_seq_len_t := msl None;
          on_a_r_in_3d := a_r_3d None;
          on_aac_x_3d := x_3d None;
          on_stage2_1_input := [x_3d None; a_r_3d None];
          on_aac_x_stage1 := Concat [x_3d None; a_r_3d None];
          on_lstm_1 := lstm_1;
          on_stage2_2_input := stage2;
          on_aac_x_stage2 := Concat stage2;
          on_lstm_2 := lstm_2;
          on_x_lstm_out :=
            Reshape lstm_2.1.1.1 [ShapeItem (conv None) 0; PyDim units_2] |}.
Proof.
  intros Hext Hu1 Hu2. unfold on_policy_network.
  rewrite encode_and_reshape_ok by done. cbn [mbind result_bind].
  rewrite (tf_concat_ok _ _ _ get_shape_stage1).
  unfold py_first, py_last. rewrite Hu1, Hu2. cbn [mbind result_bind of_option].
  rewrite append_internal_ok. cbn [mbind result_bind].
  erewrite tf_concat_ok by exact get_shape_stage2. cbn [mbind result_bind].
  by erewrite (reshape_back_ok _ _ _ _ units_2) by (exact get_shape_lstm_2 || done).
Qed.
End OnPolicy.

(** What a successful construction has done: the action-reward width is
    not negative, the on-policy part was built, and the attributes of the
    object are those of the on-policy part. *)
Lemma init_frame_inv C tp ob ac rp cls layers aux kw p fr :
  init_frame C tp ob ac rp cls layers aux kw = Ok (p, fr) →
  0 <= ac + 1
  ∧ on_policy_network C (nested_placeholders ob None "on_policy_state_in")
      (Placeholder tf_float32 [None; Some (ac + 1)] "on_policy_action_reward_in_pl")
      (ScalarPlaceholder tf_int32 "on_policy_batch_size")
      (ScalarPlaceholder tf_int32 "on_policy_sequence_size")
      ob ac cls layers (dict_update kw plug_in_1d) = Ok fr
  ∧ on_state_in p = nested_placeholders ob None "on_policy_state_in"
  ∧ on_a_r_in p = Placeholder tf_float32 [None; Some (ac + 1)] "on_policy_action_reward_in_pl"
  ∧ on_batch_size p = ScalarPlaceholder tf_int32 "on_policy_batch_size"
  ∧ on_time_length p = ScalarPlaceholder tf_int32 "on_policy_sequence_size"
  ∧ (on_logits p, on_vf p, on_sample p) = dense_aac_network (on_x_lstm_out fr) ac None
  ∧ (on_lstm_1_init_state p, on_lstm_1_state_out p, on_lstm_1_state_pl_flatten p)
    = ((on_lstm_1 fr).1.1.2, (on_lstm_1 fr).1.2, (on_lstm_1 fr).2)
  ∧ (on_lstm_2_init_state p, on_lstm_2_state_out p, on_lstm_2_state_pl_flatten p)
    = ((on_lstm_2 fr).1.1.2, (on_lstm_2 fr).1.2, (on_lstm_2 fr).2)
  ∧ lstm_layers p = layers.
Proof.
  unfold init_frame, tf_placeholder. cbn [forallb].
  destruct (bool_decide (0 <= ac + 1)) eqn:Hac; [|done].
  apply bool_decide_eq_true in Hac. cbn [andb mbind result_bind].
  destruct (on_policy_network _ _ _ _ _ _ _ _ _ _) as [on|e] eqn:Hon; [|done].
  cbn [mbind result_bind].
  destruct (on_lstm_1 on) as [[[o1 i1] s1] f1] eqn:H1.
  destruct (on_lstm_2 on) as [[[o2 i2] s2] f2] eqn:H2.
  intros [= <- <-]. cbn. by rewrite H1, H2.
Qed.

(** A construction fails unless the observation mapping has the
    "external" modality and [lstm_layers] has an entry. *)
Lemma on_policy_network_inv C ob ac cls layers kw name a_r bs_name tl fr :
  on_policy_network C (nested_placeholders ob None name) a_r
    (ScalarPlaceholder tf_int32 bs_name) tl ob ac cls layers kw = Ok fr →
  ∃ ext units_1 units_2,
    ob !! "external" = Some ext ∧ head layers = Some units_1 ∧ last layers = Some units_2.
Proof.
  intros Hon. destruct (ob !! "external") as [ext|] eqn:Hext.
  - destruct layers as [|u l].
    + unfold on_policy_network in Hon.
      rewrite (encode_and_reshape_ok _ _ _ _ _ _ _ ext) in Hon by done.
      cbn [mbind result_bind] in Hon.
      rewrite (tf_concat_ok _ _ _ (get_shape_stage1 C ac kw name a_r bs_name ext)) in Hon.
      done.
    + destruct (last (u :: l)) as [u2|] eqn:Hl; [by exists ext, u, u2|].
      by apply last_None in Hl.
  - unfold on_policy_network, encode_and_reshape, py_getitem in Hon.
    by rewrite lookup_nested_placeholders, Hext in Hon.
Qed.

(** ** Evaluation, step by step *)

Section RunEquations.
Context (C : collaborators) (feed : feed_dict).

Lemma run_Conv2dNetwork x ob ac reuse kw s :
  run C feed x = Ok s →
  run C feed (Conv2dNetwork x ob ac reuse kw)
  = match s with
    | n :: _ => Ok (n :: conv_2d_features C ob ac kw)
    | [] => Raise InvalidArgumentError
    end.
Proof. cbn. by intros ->. Qed.

Lemma run_Reshape x dims :
  run C feed (Reshape x dims)
  = (s ← run C feed x; ds ← sequence (map (run_scalar C feed) dims);
     reshape_dims (np_prod s) ds).
Proof. reflexivity. Qed.

Lemma run_Concat xs :
  run C feed (Concat xs)
  = (shapes ← sequence (map (run C feed) xs); concat_last_eval shapes).
Proof. reflexivity. Qed.

Lemma run_Concat_Raise x xs e :
  run C feed x = Raise e → run C feed (Concat (x :: xs)) = Raise e.
Proof. rewrite run_Concat. cbn. by intros ->. Qed.

Lemma run_LstmOutput_Raise x tl cls layers name reuse e :
  run C feed x = Raise e → run C feed (LstmOutput x tl cls layers name reuse) = Raise e.
Proof. cbn. by intros ->. Qed.

Lemma run_Reshape_Raise x dims e :
  run C feed x = Raise e → run C feed (Reshape x dims) = Raise e.
Proof. rewrite run_Reshape. by intros ->. Qed.

Lemma run_DenseAacLogits_Raise x ac reuse e :
  run C feed x = Raise e → run C feed (DenseAacLogits x ac reuse) = Raise e.
Proof. cbn. by intros ->. Qed.

Lemma run_DenseAacValue_Raise x ac reuse e :
  run C feed x = Raise e → run C feed (DenseAacValue x ac reuse) = Raise e.
Proof. cbn. by intros ->. Qed.

Lemma run_DenseAacSample_Raise x ac reuse e :
  run C feed x = Raise e → run C feed (DenseAacSample x ac reuse) = Raise e.
Proof. cbn. by intros ->. Qed.

Lemma run_ShapeItem_0 t n s :
  run C feed t = Ok (n :: s) → run_scalar C feed (ShapeItem t 0) = Ok n.
Proof.
  change (run_scalar C feed (ShapeItem t 0))
    with (s ← run C feed t; of_option InvalidArgumentError (s !! 0%nat)).
  by intros ->.
Qed.

Lemma run_CastInt32TrueDiv a b x y :
  run_scalar C feed a = Ok x → run_scalar C feed b = Ok y →
  run_scalar C feed (CastInt32TrueDiv a b) = Ok (max_seq_len (nonfinite_cast C) x y).
Proof.
  change (run_scalar C feed (CastInt32TrueDiv a b))
    with (x ← run_scalar C feed a; y ← run_scalar C feed b;
          Ok (cast_int32_truediv (nonfinite_cast C) x y)).
  by intros -> ->.
Qed.

(** A fed placeholder has the fed shape, which fits its static shape. *)
Lemma run_Placeholder_inv dt shp name s :
  run C feed (Placeholder dt shp name) = Ok s →
  feed_arrays feed !! name = Some s ∧ is_compatible shp s = true.
Proof.
  cbn. destruct (feed_arrays feed !! name) as [fed|]; [|done]. cbn.
  destruct (is_compatible shp fed) eqn:Hc; [|done]. by intros [= ->].
Qed.

(** The reshape of a batch with leading dimension [n] to
    [[batch_size, max_seq_len, depth]]. *)
Lemma run_reshape_3d x n s bs_t b dyn0 depth :
  run C feed x = Ok (n :: s) →
  run_scalar C feed bs_t = Ok b →
  run_scalar C feed dyn0 = Ok n →
  run C feed (Reshape x [bs_t; CastInt32TrueDiv dyn0 bs_t; PyDim depth])
  = reshape_dims (n * np_prod s) (rnn_input_dims (nonfinite_cast C) n b depth).
Proof.
  intros Hx Hb Hn. rewrite run_Reshape, Hx. cbn [map sequence mbind result_bind].
  rewrite (run_CastInt32TrueDiv _ _ n b), Hb by done. reflexivity.
Qed.
End RunEquations.

Lemma reshape_dims_Raise size dims e :
  reshape_dims size dims = Raise e → e = InvalidArgumentError.
Proof.
  unfold reshape_dims. destruct (negb _); [congruence|].
  destruct (length _) as [|[|?]]; repeat case_decide; congruence.
Qed.

Lemma is_compatible_leading shp n s : is_compatible (None :: shp) (n :: s) = true → 0 <= n.
Proof. cbn. intros [[H%bool_decide_eq_true _]%andb_prop _]%andb_prop. exact H. Qed.

(** A goal about the result [(p, fr)] of a concrete construction [Hb] is
    settled by evaluating it on the construction itself. *)
Ltac compute_from Hb :=
  match type of Hb with
  | ?X = Ok (?p, ?fr) =>
      pattern p, fr;
      match goal with
      | |- ?F p fr =>
          cut (match X with Ok (p', fr') => F p' fr' | Raise _ => True end);
          [ let Hc := fresh in intros Hc; rewrite Hb in Hc; exact Hc
          | vm_compute; reflexivity ]
      end
  end.

(** A concrete construction that evaluates to a result has not raised. *)
Ltac raised_from Hb :=
  match type of Hb with
  | ?X = Raise _ =>
      let Hok := fresh in
      assert (is_ok X = true) as Hok by (vm_compute; reflexivity);
      rewrite Hb in Hok; discriminate Hok
  end.

(** ** C1: the batch-size contract *)

(** C1: for every successful construction with a non-negative action
    space, fed an external observation batch and an action-reward batch
    of leading dimension [n] and a batch size [b]: [max_seq_len]
    evaluates to the truncated quotient of [n] by [b], which for a
    positive [b] is the integer division [n / b]; and when [n] is not a
    multiple of [b] the reshape of the action-reward batch to
    [[batch_size, max_seq_len, ac_space + 1]] is rejected at evaluation,
    so is the reshape of the encoded batch when it has elements, and the
    evaluation of the logits, of the value and of the sampled action
    reports the failure instead of a shape. *)
Theorem batch_size_contract C tp ob ac rp cls layers aux kw p fr feed ext_pl n rest b :
  init_frame C tp ob ac rp cls layers aux kw = Ok (p, fr) →
  0 <= ac →
  on_state_in p !! "external" = Some ext_pl →
  run C feed ext_pl = Ok (n :: rest) →
  run C feed (on_a_r_in p) = Ok [n; ac + 1] →
  run_scalar C feed (on_batch_size p) = Ok b →
  (b ≠ 0 → run_scalar C feed (max_seq_len_t fr) = Ok (Z.quot n b))
  ∧ (0 < b → Z.quot n b = n / b)
  ∧ (¬ (b | n) →
      run C feed (on_a_r_in_3d fr) = Raise InvalidArgumentError
      ∧ (∀ s, run C feed (on_aac_x_conv fr) = Ok s → 0 < np_prod (tail s) →
           run C feed (on_aac_x_3d fr) = Raise InvalidArgumentError)
      ∧ run C feed (on_logits p) = Raise InvalidArgumentError
      ∧ run C feed (on_vf p) = Raise InvalidArgumentError
      ∧ run C feed (on_sample p) = Raise InvalidArgumentError).
Proof.
  intros Hinit Hac Hpl Hext_run Har_run Hb_run.
  destruct (init_frame_inv _ _ _ _ _ _ _ _ _ _ _ Hinit)
    as (_ & Hon & Hst & Har & Hbs & _ & Hout & _).
  destruct (on_policy_network_inv _ _ _ _ _ _ _ _ _ _ _ Hon)
    as (ext & u1 & u2 & Hext & Hu1 & Hu2).
  rewrite (on_policy_network_ok _ _ _ _ _ _ _ _ _ _ ext u1 u2 Hext Hu1 Hu2) in Hon.
  injection Hon as <-. cbn [max_seq_len_t on_a_r_in_3d on_aac_x_3d on_aac_x_conv
    on_x_lstm_out] in *.
  rewrite Hst, lookup_nested_placeholders, Hext in Hpl. injection Hpl as <-.
  rewrite Har in Har_run. rewrite Hbs in Hb_run.
  injection Hout as -> -> ->.
  destruct (run_Placeholder_inv _ _ _ _ _ _ Hext_run) as [_ Hn%is_compatible_leading].
  set (ext_in := Placeholder _ _ _) in *.
  set (conv := Conv2dNetwork ext_in ext ac None _) in *.
  set (feats := conv_2d_features C ext ac (dict_update kw plug_in_1d)).
  assert (run C feed conv = Ok (n :: feats)) as Hconv
    by (unfold conv; by rewrite (run_Conv2dNetwork _ _ _ _ _ _ _ _ Hext_run)).
  pose proof (run_ShapeItem_0 _ _ _ _ _ Hconv) as Hdyn.
  split; [|split].
  - intros Hb0. rewrite (run_CastInt32TrueDiv _ _ _ _ n b) by done.
    unfold max_seq_len, cast_int32_truediv. by rewrite decide_False.
  - intros Hb. apply Z.quot_div_nonneg; lia.
  - intros Hdiv.
    assert (run C feed (Reshape (Placeholder tf_float32 [None; Some (ac + 1)]
                                  "on_policy_action_reward_in_pl")
              [ScalarPlaceholder tf_int32 "on_policy_batch_size";
               CastInt32TrueDiv (ShapeItem conv 0)
                 (ScalarPlaceholder tf_int32 "on_policy_batch_size");
               PyDim (ac + 1)]) = Raise InvalidArgumentError) as Har3.
    { rewrite (run_reshape_3d _ _ _ n [ac + 1] _ b) by done.
      replace (n * np_prod [ac + 1]) with (n * (ac + 1)) by (cbn; lia).
      apply reshape_dims_not_multiple; [done | lia | done]. }
    assert (∀ depth, ∃ r,
      run C feed (Reshape conv
              [ScalarPlaceholder tf_int32 "on_policy_batch_size";
               CastInt32TrueDiv (ShapeItem conv 0)
                 (ScalarPlaceholder tf_int32 "on_policy_batch_size");
               PyDim depth]) = r
      ∧ (r = Raise InvalidArgumentError ∨ ∃ s, r = Ok s)
      ∧ (depth = np_prod feats → 0 < depth → r = Raise InvalidArgumentError)) as Hx3.
    { intros depth. eexists. split; [reflexivity|].
      rewrite (run_reshape_3d _ _ _ n feats _ b) by done. split.
      - destruct (reshape_dims _ _) as [s|e] eqn:E; [by eauto|].
        left. f_equal. by eapply reshape_dims_Raise.
      - intros -> Hpos. by apply reshape_dims_not_multiple. }
    assert (run C feed
              (Concat
                 [Reshape conv
                    [ScalarPlaceholder tf_int32 "on_policy_batch_size";
                     CastInt32TrueDiv (ShapeItem conv 0)
                       (ScalarPlaceholder tf_int32 "on_policy_batch_size");
                     PyDim (np_prod feats)];
                  Reshape (Placeholder tf_float32 [None; Some (ac + 1)]
                             "on_policy_action_reward_in_pl")
                    [ScalarPlaceholder tf_int32 "on_policy_batch_size";
                     CastInt32TrueDiv (ShapeItem conv 0)
                       (ScalarPlaceholder tf_int32 "on_policy_batch_size");
                     PyDim (ac + 1)]]) = Raise InvalidArgumentError) as Hstage1.
    { rewrite run_Concat. cbn [map sequence].
      destruct (Hx3 (np_prod feats)) as (r & -> & [-> | [s ->]] & _); [done|].
      cbn [mbind result_bind]. by rewrite Har3. }
    split; [exact Har3|]. split.
    + intros s Hs Hpos. rewrite Hconv in Hs. injection Hs as <-. cbn in Hpos.
      destruct (Hx3 (np_prod feats)) as (r & <- & _ & Hr). by apply Hr.
    + cbn [lstm_network fst snd app]. repeat split.
      * apply run_DenseAacLogits_Raise, run_Reshape_Raise, run_LstmOutput_Raise,
          run_Concat_Raise, run_LstmOutput_Raise, Hstage1.
      * apply run_DenseAacValue_Raise, run_Reshape_Raise, run_LstmOutput_Raise,
          run_Concat_Raise, run_LstmOutput_Raise, Hstage1.
      * apply run_DenseAacSample_Raise, run_Reshape_Raise, run_LstmOutput_Raise,
          run_Concat_Raise, run_LstmOutput_Raise, Hstage1.
Qed.

Lemma batch_size_contract_witness :
  match scenario_built with
  | Ok (p, fr) =>
      (4 ≠ 0 → run_scalar scenario_collaborators (scenario_feed 10 4 3) (max_seq_len_t fr)
               = Ok (Z.quot 10 4))
      ∧ (0 < 4 → Z.quot 10 4 = 10 / 4)
      ∧ (¬ (4 | 10) →
          run scenario_collaborators (scenario_feed 10 4 3) (on_a_r_in_3d fr)
          = Raise InvalidArgumentError
          ∧ (∀ s,
               run scenario_collaborators (scenario_feed 10 4 3) (on_aac_x_conv fr) = Ok s →
               0 < np_prod (tail s) →
               run scenario_collaborators (scenario_feed 10 4 3) (on_aac_x_3d fr)
               = Raise InvalidArgumentError)
          ∧ run scenario_collaborators (scenario_feed 10 4 3) (on_logits p)
            = Raise InvalidArgumentError
          ∧ run scenario_collaborators (scenario_feed 10 4 3) (on_vf p)
            = Raise InvalidArgumentError
          ∧ run scenario_collaborators (scenario_feed 10 4 3) (on_sample p)
            = Raise InvalidArgumentError)
  | Raise _ => False
  end.
Proof.
  destruct scenario_built as [[p fr]|e] eqn:Hb; [|by raised_from Hb].
  unfold scenario_built in Hb.
  apply (batch_size_contract _ _ _ _ _ _ _ _ _ p fr (scenario_feed 10 4 3)
           (Placeholder tf_float32 [None; Some 10; Some 10; Some 3]
              "on_policy_state_in_external") 10 [10; 10; 3] 4 Hb).
  - lia.
  - by compute_from Hb.
  - by compute_from Hb.
  - by compute_from Hb.
  - by compute_from Hb.
Defined.

(** ** C3: the inputs of the second recurrent layer *)

Lemma init_frame_ok C tp ob ac rp cls layers aux kw fr :
  0 <= ac + 1 →
  on_policy_network C (nested_placeholders ob None "on_policy_state_in")
    (Placeholder tf_float32 [None; Some (ac + 1)] "on_policy_action_reward_in_pl")
    (ScalarPlaceholder tf_int32 "on_policy_batch_size")
    (ScalarPlaceholder tf_int32 "on_policy_sequence_size")
    ob ac cls layers (dict_update kw plug_in_1d) = Ok fr →
  ∃ p, init_frame C tp ob ac rp cls layers aux kw = Ok (p, fr).
Proof.
  intros Hac Hon. unfold init_frame, tf_placeholder. cbn [forallb].
  rewrite bool_decide_true by done. cbn [andb mbind result_bind].
  rewrite Hon. cbn [mbind result_bind].
  destruct (on_lstm_1 fr) as [[[o1 i1] s1] f1].
  destruct (on_lstm_2 fr) as [[[o2 i2] s2] f2]. cbn. eauto.
Qed.




(** ** The attributes of the constructed object *)

Lemma init_ok_frame C tp ob ac rp cls layers aux kw p :
  __init__ C tp ob ac rp cls layers aux kw = Ok p →
  ∃ fr, init_frame C tp ob ac rp cls layers aux kw = Ok (p, fr).
Proof.
  unfold __init__.
  destruct (init_frame C tp ob ac rp cls layers aux kw) as [[p' fr]|e]; [|done].
  intros [= <-]. by exists fr.
Qed.

Lemma init_frame_attrs C tp ob ac rp cls layers aux kw p fr :
  init_frame C tp ob ac rp cls layers aux kw = Ok (p, fr) →
  on_lstm_init_state p = (on_lstm_1_init_state p, on_lstm_2_init_state p)
  ∧ on_lstm_state_out p = (on_lstm_1_state_out p, on_lstm_2_state_out p)
  ∧ on_lstm_state_pl_flatten p
    = on_lstm_1_state_pl_flatten p ++ on_lstm_2_state_pl_flatten p
  ∧ off_policy p = None
  ∧ callback p
    = (if aux then <["pixel_change"%string := BoundMethod "get_pc_target"]> ∅ else ∅)
  ∧ train_phase p
    = match tp with
      | Some v => v
      | None => AttrBoolTensor (PlaceholderWithDefault false [] "train_phase_flag_pl")
      end
  ∧ aux_estimate p = aux.
Proof.
  unfold init_frame, tf_placeholder. cbn [forallb].
  destruct (bool_decide (0 <= ac + 1)); [|done]. cbn [andb mbind result_bind].
  destruct (on_policy_network _ _ _ _ _ _ _ _ _ _) as [on|e]; [|done].
  cbn [mbind result_bind].
  destruct (on_lstm_1 on) as [[[o1 i1] s1] f1].
  destruct (on_lstm_2 on) as [[[o2 i2] s2] f2].
  by intros [= <- <-].
Qed.

(** The initial state of a one-layer stack is its flattened placeholder
    list, as the single layer's tuple. *)
Lemma lstm_network_one_layer x tl cls units name reuse :
  (lstm_network x tl cls [units] name reuse).1.1.2
  = [(lstm_network x tl cls [units] name reuse).2].
Proof. cbn. by rewrite app_nil_r. Qed.

(** ** C4: the combined recurrent state *)

(** C4: after a successful construction the exposed initial state and
    the exposed final state are the pairs (layer 1, layer 2); the
    combined flattened placeholder list is layer 1's list followed by
    layer 2's list, its length is the sum of the two lengths, and cutting
    it at the length of layer 1's list gives back each layer's list and,
    with it, each layer's initial-state structure. *)
Theorem combined_state C tp ob ac rp cls layers aux kw p :
  __init__ C tp ob ac rp cls layers aux kw = Ok p →
  let n1 := length (on_lstm_1_state_pl_flatten p) in
  on_lstm_init_state p = (on_lstm_1_init_state p, on_lstm_2_init_state p)
  ∧ on_lstm_state_out p = (on_lstm_1_state_out p, on_lstm_2_state_out p)
  ∧ on_lstm_state_pl_flatten p
    = on_lstm_1_state_pl_flatten p ++ on_lstm_2_state_pl_flatten p
  ∧ length (on_lstm_state_pl_flatten p)
    = (n1 + length (on_lstm_2_state_pl_flatten p))%nat
  ∧ take n1 (on_lstm_state_pl_flatten p) = on_lstm_1_state_pl_flatten p
  ∧ drop n1 (on_lstm_state_pl_flatten p) = on_lstm_2_state_pl_flatten p
  ∧ on_lstm_1_init_state p = [take n1 (on_lstm_state_pl_flatten p)]
  ∧ on_lstm_2_init_state p = [drop n1 (on_lstm_state_pl_flatten p)].
Proof.
  intros [fr Hinit]%init_ok_frame n1. subst n1.
  destruct (init_frame_attrs _ _ _ _ _ _ _ _ _ _ _ Hinit) as (Hi & Ho & Hf & _).
  destruct (init_frame_inv _ _ _ _ _ _ _ _ _ _ _ Hinit)
    as (_ & Hon & _ & _ & _ & _ & _ & H1 & H2 & _).
  destruct (on_policy_network_inv _ _ _ _ _ _ _ _ _ _ _ Hon)
    as (ext & u1 & u2 & Hext & Hu1 & Hu2).
  rewrite (on_policy_network_ok _ _ _ _ _ _ _ _ _ _ ext u1 u2 Hext Hu1 Hu2) in Hon.
  injection Hon as <-. cbn [on_lstm_1 on_lstm_2] in H1, H2.
  rewrite !lstm_network_one_layer in H1, H2.
  injection H1 as Hi1 _ Hf1. injection H2 as Hi2 _ Hf2.
  rewrite Hi, Ho, Hf. repeat split.
  - by rewrite length_app.
  - by rewrite take_app_length.
  - by rewrite drop_app_length.
  - by rewrite take_app_length, Hi1, Hf1.
  - by rewrite drop_app_length, Hi2, Hf2.
Qed.

Lemma combined_state_witness :
  match scenario_policy with
  | Ok p =>
      let n1 := length (on_lstm_1_state_pl_flatten p) in
      on_lstm_init_state p = (on_lstm_1_init_state p, on_lstm_2_init_state p)
      ∧ on_lstm_state_out p = (on_lstm_1_state_out p, on_lstm_2_state_out p)
      ∧ on_lstm_state_pl_flatten p
        = on_lstm_1_state_pl_flatten p ++ on_lstm_2_state_pl_flatten p
      ∧ length (on_lstm_state_pl_flatten p)
        = (n1 + length (on_lstm_2_state_pl_flatten p))%nat
      ∧ take n1 (on_lstm_state_pl_flatten p) = on_lstm_1_state_pl_flatten p
      ∧ drop n1 (on_lstm_state_pl_flatten p) = on_lstm_2_state_pl_flatten p
      ∧ on_lstm_1_init_state p = [take n1 (on_lstm_state_pl_flatten p)]
      ∧ on_lstm_2_init_state p = [drop n1 (on_lstm_state_pl_flatten p)]
  | Raise _ => False
  end.
Proof.
  destruct scenario_policy as [p|e] eqn:Hb; [|by raised_from Hb].
  exact (combined_state _ _ _ _ _ _ _ _ _ p Hb).
Defined.

(** ** Evaluation of a well-fed graph *)

Section RunOk.
Context (C : collaborators) (feed : feed_dict).

Lemma run_reshape_3d_ok x s bs_t dyn0 b t depth :
  run C feed x = Ok (b * t :: s) →
  run_scalar C feed bs_t = Ok b →
  run_scalar C feed dyn0 = Ok (b * t) →
  0 < b → 0 <= t → 0 <= depth → depth = np_prod s →
  run C feed (Reshape x [bs_t; CastInt32TrueDiv dyn0 bs_t; PyDim depth]) = Ok [b; t; depth].
Proof.
  intros Hx Hb Hn Hbpos Ht Hd ->.
  rewrite (run_reshape_3d _ _ _ _ _ _ _ _ _ Hx Hb Hn).
  unfold rnn_input_dims. rewrite max_seq_len_exact by lia.
  apply reshape_dims_plain; [repeat constructor; lia | cbn; lia].
Qed.

Lemma run_Concat_2 x y b t f1 f2 :
  run C feed x = Ok [b; t; f1] → run C feed y = Ok [b; t; f2] →
  run C feed (Concat [x; y]) = Ok [b; t; f1 + f2].
Proof.
  intros Hx Hy. rewrite run_Concat. cbn [map sequence]. rewrite Hx, Hy.
  cbn. by rewrite decide_True.
Qed.

Lemma run_Concat_3 x y z b t f1 f2 f3 :
  run C feed x = Ok [b; t; f1] → run C feed y = Ok [b; t; f2] →
  run C feed z = Ok [b; t; f3] →
  run C feed (Concat [x; y; z]) = Ok [b; t; f1 + f2 + f3].
Proof.
  intros Hx Hy Hz. rewrite run_Concat. cbn [map sequence]. rewrite Hx, Hy, Hz.
  cbn. rewrite decide_True by done. cbn. by rewrite decide_True.
Qed.

Lemma run_LstmOutput_ok x tl cls layers name reuse b t f v units :
  run C feed x = Ok [b; t; f] → run_scalar C feed tl = Ok v →
  last layers = Some units →
  run C feed (LstmOutput x tl cls layers name reuse) = Ok [b; t; units].
Proof.
  intros Hx Htl Hl.
  change (run C feed (LstmOutput x tl cls layers name reuse))
    with (s ← run C feed x; _ ← run_scalar C feed tl; units ← py_last layers;
          match s with
          | [b; t; _] => Ok [b; t; units]
          | _ => Raise InvalidArgumentError
          end).
  unfold py_last. by rewrite Hx, Htl, Hl.
Qed.

Lemma run_LstmStateOut_ok x tl cls layers name reuse layer part b t f v units :
  run C feed x = Ok [b; t; f] → run_scalar C feed tl = Ok v →
  layers !! layer = Some units →
  run C feed (LstmStateOut x tl cls layers name reuse layer part) = Ok [b; units].
Proof.
  intros Hx Htl Hl.
  change (run C feed (LstmStateOut x tl cls layers name reuse layer part))
    with (s ← run C feed x; _ ← run_scalar C feed tl;
          units ← of_option IndexError (layers !! layer);
          match s with
          | [b; _; _] => Ok [b; units]
          | _ => Raise InvalidArgumentError
          end).
  by rewrite Hx, Htl, Hl.
Qed.

Lemma run_reshape_back_ok x dyn0 b t units :
  run C feed x = Ok [b; t; units] → run_scalar C feed dyn0 = Ok (b * t) →
  0 <= b * t → 0 <= units →
  run C feed (Reshape x [dyn0; PyDim units]) = Ok [b * t; units].
Proof.
  intros Hx Hn Hbt Hu. rewrite run_Reshape, Hx. cbn [map sequence mbind result_bind].
  rewrite Hn.
  change (run_scalar C feed (PyDim units)) with (Ok (A:=Z) units).
  cbn [mbind result_bind].
  apply reshape_dims_plain; [repeat constructor; lia | cbn; lia].
Qed.

Lemma run_dense_aac_network_ok x ac reuse m f :
  run C feed x = Ok [m; f] →
  run C feed (DenseAacLogits x ac reuse) = Ok [m; ac]
  ∧ run C feed (DenseAacValue x ac reuse) = Ok [m]
  ∧ run C feed (DenseAacSample x ac reuse) = Ok [m].
Proof. intros Hx. cbn. by rewrite Hx. Qed.
End RunOk.

Lemma np_prod_nonneg dims : Forall (λ d, 0 <= d) dims → 0 <= np_prod dims.
Proof. induction 1 as [|d l Hd _ IH]; cbn; [lia | by apply Z.mul_nonneg_nonneg]. Qed.

Lemma run_Placeholder_ok C feed dt shp name s :
  feed_arrays feed !! name = Some s → is_compatible shp s = true →
  run C feed (Placeholder dt shp name) = Ok s.
Proof. intros Hf Hc. cbn. rewrite Hf. cbn. by rewrite Hc. Qed.

Lemma is_compatible_batch n ext :
  0 <= n → Forall (λ d, 0 <= d) ext → is_compatible (None :: map Some ext) (n :: ext) = true.
Proof.
  intros Hn Hext. cbn. rewrite bool_decide_true by done. cbn.
  induction Hext as [|d l Hd _ IH]; [done|]. cbn.
  by rewrite !bool_decide_true, IH by done.
Qed.

Lemma Forall_imap_index {A B} (P : B → Prop) (f : nat → B) (l : list A) :
  (∀ j, P (f j)) → Forall P (imap (λ j _, f j) l).
Proof.
  revert f. induction l as [|a l IH]; intros f Hf; [constructor|].
  cbn. constructor; [apply Hf|]. apply (IH (f ∘ S)). intros j. apply Hf.
Qed.

(** For every successful construction without the "internal" modality,
    fed a batch of [b * t] steps with batch size [b]: the sequence
    length evaluates to [t], the inputs of the recurrent layers have the
    shape [[b, t, _]] and the outputs the shape [[b * t, _]]. *)
Lemma run_policy_ok C feed tp ob ac rp cls layers aux kw p fr ext u1 u2 b t v :
  init_frame C tp ob ac rp cls layers aux kw = Ok (p, fr) →
  ob !! "external" = Some ext → ob !! "internal" = None →
  head layers = Some u1 → last layers = Some u2 →
  Forall (λ d, 0 <= d) (conv_2d_features C ext ac (dict_update kw plug_in_1d)) →
  Forall (λ d, 0 <= d) ext →
  0 <= u2 → 0 < b → 0 <= t →
  feed_arrays feed !! "on_policy_state_in_external" = Some (b * t :: ext) →
  feed_arrays feed !! "on_policy_action_reward_in_pl" = Some [b * t; ac + 1] →
  feed_ints feed !! "on_policy_batch_size" = Some b →
  feed_ints feed !! "on_policy_sequence_size" = Some v →
  let depth := np_prod (conv_2d_features C ext ac (dict_update kw plug_in_1d)) in
  run_scalar C feed (max_seq_len_t fr) = Ok t
  ∧ run C feed (on_aac_x_3d fr) = Ok [b; t; depth]
  ∧ run C feed (on_a_r_in_3d fr) = Ok [b; t; ac + 1]
  ∧ run C feed (on_aac_x_stage1 fr) = Ok [b; t; depth + (ac + 1)]
  ∧ run C feed (on_aac_x_stage2 fr) = Ok [b; t; u1 + depth + (ac + 1)]
  ∧ run C feed (on_logits p) = Ok [b * t; ac]
  ∧ run C feed (on_vf p) = Ok [b * t]
  ∧ run C feed (on_sample p) = Ok [b * t]
  ∧ Forall (λ s, run C feed s = Ok [b; u1]) (concat (on_lstm_1_state_out p))
  ∧ Forall (λ s, run C feed s = Ok [b; u2]) (concat (on_lstm_2_state_out p)).
Proof.
  intros Hinit Hext Hint Hu1 Hu2 Hfeats Hextpos Hu2pos Hb Ht Hfx Hfar Hfb Hftl depth.
  destruct (init_frame_inv _ _ _ _ _ _ _ _ _ _ _ Hinit)
    as (Hac & Hon & _ & _ & _ & _ & Hout & H1 & H2 & _).
  rewrite (on_policy_network_ok _ _ _ _ _ _ _ _ _ _ ext u1 u2 Hext Hu1 Hu2) in Hon.
  injection Hon as <-. rewrite Hint in *.
  cbn [max_seq_len_t on_a_r_in_3d on_aac_x_3d on_aac_x_stage1 on_aac_x_stage2
    on_x_lstm_out on_lstm_1 on_lstm_2 lstm_network fst snd app] in *.
  injection Hout as -> -> ->. injection H1 as _ -> _. injection H2 as _ -> _.
  assert (0 <= b * t) as Hbt by nia.
  assert (0 <= depth) as Hdepth by by apply np_prod_nonneg.
  set (bs := ScalarPlaceholder tf_int32 "on_policy_batch_size") in *.
  set (tl := ScalarPlaceholder tf_int32 "on_policy_sequence_size") in *.
  set (ext_in := Placeholder tf_float32 (None :: map Some ext) _) in *.
  set (a_r := Placeholder tf_float32 [None; Some (ac + 1)] _) in *.
  set (conv := Conv2dNetwork ext_in ext ac None _) in *.
  assert (run_scalar C feed bs = Ok b) as Hbs by (cbn; by rewrite Hfb).
  assert (run_scalar C feed tl = Ok v) as Htl by (cbn; by rewrite Hftl).
  assert (run C feed ext_in = Ok (b * t :: ext)) as Hrx.
  { apply run_Placeholder_ok; [exact Hfx | by apply is_compatible_batch]. }
  assert (run C feed a_r = Ok [b * t; ac + 1]) as Hrar.
  { apply run_Placeholder_ok; [exact Hfar|]. cbn. by rewrite !bool_decide_true by done. }
  assert (run C feed conv = Ok (b * t :: conv_2d_features C ext ac (dict_update kw plug_in_1d)))
    as Hconv by (unfold conv; by rewrite (run_Conv2dNetwork _ _ _ _ _ _ _ _ Hrx)).
  pose proof (run_ShapeItem_0 _ _ _ _ _ Hconv) as Hdyn.
  set (msl := CastInt32TrueDiv (ShapeItem conv 0) bs) in *.
  assert (run_scalar C feed msl = Ok t) as Hmsl.
  { unfold msl. rewrite (run_CastInt32TrueDiv _ _ _ _ _ _ Hdyn Hbs).
    by rewrite max_seq_len_exact by lia. }
  pose proof (run_reshape_3d_ok C feed conv _ bs _ b t depth Hconv Hbs Hdyn Hb Ht Hdepth
                eq_refl) as Hx3.
  assert (run C feed (Reshape a_r [bs; msl; PyDim (ac + 1)]) = Ok [b; t; ac + 1]) as Har3.
  { apply (run_reshape_3d_ok C feed a_r [ac + 1]); try done. cbn; lia. }
  pose proof (run_Concat_2 C feed _ _ _ _ _ _ Hx3 Har3) as Hs1.
  pose proof (run_LstmOutput_ok C feed _ tl cls [u1] (Some "lstm_1"%string) None
                _ _ _ _ u1 Hs1 Htl eq_refl) as Hl1.
  pose proof (run_Concat_3 C feed _ _ _ _ _ _ _ _ Hl1 Hx3 Har3) as Hs2.
  pose proof (run_LstmOutput_ok C feed _ tl cls [u2] (Some "lstm_2"%string) None
                _ _ _ _ u2 Hs2 Htl eq_refl) as Hl2.
  pose proof (run_reshape_back_ok C feed _ _ _ _ _ Hl2 Hdyn Hbt Hu2pos) as Hback.
  destruct (run_dense_aac_network_ok C feed _ ac None _ _ Hback) as (Hlog & Hvf & Hsm).
  split_and!; try done.
  - cbn [concat]. rewrite app_nil_r.
    apply (Forall_imap_index _ (λ j, LstmStateOut _ tl cls [u1] _ None 0 j)).
    intros j. by eapply run_LstmStateOut_ok.
  - cbn [concat]. rewrite app_nil_r.
    apply (Forall_imap_index _ (λ j, LstmStateOut _ tl cls [u2] _ None 0 j)).
    intros j. by eapply run_LstmStateOut_ok.
Qed.

(** ** C5: the scenario of the specification *)

(** C5: with [action_space = 4], [lstm_layers = (8, 16)], external
    observations of shape [[10, 10, 3]] and no "internal" modality, for
    any encoder with non-negative feature dimensions, the construction
    succeeds; fed 6 observation steps with batch size 2 the sequence
    length evaluates to 3, the logits have shape [[6, 4]] and the value
    has shape [[6]]; the graph has two recurrent-layer calls, lstm_1 with
    the unit tuple [(8,)] and lstm_2 with [(16,)]; every tensor of the
    final state of lstm_1 has static shape [[None, 8]] and evaluates to
    [[2, 8]], every tensor of the final state of lstm_2 has static shape
    [[None, 16]] and evaluates to [[2, 16]], and each final state has one
    tensor for each part of the state of the cell class. *)
Theorem scenario_shapes C tp rp cls aux kw feed :
  Forall (λ d, 0 <= d) (conv_2d_features C [10; 10; 3] 4 (dict_update kw plug_in_1d)) →
  feed_arrays feed !! "on_policy_state_in_external" = Some [6; 10; 10; 3] →
  feed_arrays feed !! "on_policy_action_reward_in_pl" = Some [6; 5] →
  feed_ints feed !! "on_policy_batch_size" = Some 2 →
  feed_ints feed !! "on_policy_sequence_size" = Some 3 →
  ∃ p fr,
    init_frame C tp scenario_ob_space 4 rp cls [8; 16] aux kw = Ok (p, fr)
    ∧ __init__ C tp scenario_ob_space 4 rp cls [8; 16] aux kw = Ok p
    ∧ run_scalar C feed (max_seq_len_t fr) = Ok 3
    ∧ run C feed (on_logits p) = Ok [6; 4]
    ∧ run C feed (on_vf p) = Ok [6]
    ∧ lstm_calls (on_logits p)
      = [(Some "lstm_2", [16]); (Some "lstm_1", [8])]%string
    ∧ Forall (λ s, get_shape C s = Some [None; Some 8] ∧ run C feed s = Ok [2; 8])
        (concat (on_lstm_1_state_out p))
    ∧ Forall (λ s, get_shape C s = Some [None; Some 16] ∧ run C feed s = Ok [2; 16])
        (concat (on_lstm_2_state_out p))
    ∧ length (concat (on_lstm_1_state_out p)) = length (state_parts cls)
    ∧ length (concat (on_lstm_2_state_out p)) = length (state_parts cls).
Proof.
  intros Hfeats Hfx Hfar Hfb Hftl.
  assert (scenario_ob_space !! "external" = Some [10; 10; 3]) as Hext by reflexivity.
  assert (scenario_ob_space !! "internal" = None) as Hint by reflexivity.
  pose proof (on_policy_network_ok C scenario_ob_space 4 cls [8; 16]
                (dict_update kw plug_in_1d) "on_policy_state_in"
                (Placeholder tf_float32 [None; Some (4 + 1)] "on_policy_action_reward_in_pl")
                "on_policy_batch_size"
                (ScalarPlaceholder tf_int32 "on_policy_sequence_size")
                [10; 10; 3] 8 16 Hext eq_refl eq_refl) as Hon.
  match type of Hon with _ = Ok ?f => set (fr := f) in * end.
  destruct (init_frame_ok C tp scenario_ob_space 4 rp cls [8; 16] aux kw fr) as [p Hp];
    [lia | exact Hon |].
  exists p, fr. split; [exact Hp|].
  split; [unfold __init__; by rewrite Hp|].
  destruct (run_policy_ok C feed tp scenario_ob_space 4 rp cls [8; 16] aux kw p fr
              [10; 10; 3] 8 16 2 3 3 Hp Hext Hint eq_refl eq_refl Hfeats)
    as (Hmsl & _ & _ & _ & _ & Hlog & Hvf & _ & Hs1 & Hs2);
    [repeat constructor; lia | lia | lia | lia | exact Hfx | exact Hfar | exact Hfb
    | exact Hftl |].
  destruct (init_frame_inv _ _ _ _ _ _ _ _ _ _ _ Hp)
    as (_ & _ & _ & _ & _ & _ & Hout & H1 & H2 & _).
  split; [exact Hmsl|]. split; [exact Hlog|]. split; [exact Hvf|].
  split.
  { injection Hout as -> _ _. subst fr. cbn [on_x_lstm_out]. rewrite Hint. reflexivity. }
  rewrite !Forall_and. split_and!.
  - injection H1 as _ -> _. subst fr. cbn [on_lstm_1 lstm_network fst snd concat].
    rewrite app_nil_r.
    by apply (Forall_imap_index _ (λ j, LstmStateOut _ _ cls [8] _ None 0 j)).
  - exact Hs1.
  - injection H2 as _ -> _. subst fr. cbn [on_lstm_2 lstm_network fst snd concat].
    rewrite app_nil_r, Hint.
    by apply (Forall_imap_index _ (λ j, LstmStateOut _ _ cls [16] _ None 0 j)).
  - exact Hs2.
  - injection H1 as _ -> _. subst fr. cbn [on_lstm_1 lstm_network fst snd concat].
    by rewrite app_nil_r, length_imap.
  - injection H2 as _ -> _. subst fr. cbn [on_lstm_2 lstm_network fst snd concat].
    by rewrite app_nil_r, length_imap.
Qed.

Lemma scenario_shapes_witness :
  ∃ p fr,
    init_frame scenario_collaborators None scenario_ob_space 4 4 BasicLSTMCell [8; 16]
      false ∅ = Ok (p, fr)
    ∧ __init__ scenario_collaborators None scenario_ob_space 4 4 BasicLSTMCell [8; 16]
        false ∅ = Ok p
    ∧ run_scalar scenario_collaborators (scenario_feed 6 2 3) (max_seq_len_t fr) = Ok 3
    ∧ run scenario_collaborators (scenario_feed 6 2 3) (on_logits p) = Ok [6; 4]
    ∧ run scenario_collaborators (scenario_feed 6 2 3) (on_vf p) = Ok [6]
    ∧ lstm_calls (on_logits p)
      = [(Some "lstm_2", [16]); (Some "lstm_1", [8])]%string
    ∧ Forall (λ s, get_shape scenario_collaborators s = Some [None; Some 8]
                   ∧ run scenario_collaborators (scenario_feed 6 2 3) s = Ok [2; 8])
        (concat (on_lstm_1_state_out p))
    ∧ Forall (λ s, get_shape scenario_collaborators s = Some [None; Some 16]
                   ∧ run scenario_collaborators (scenario_feed 6 2 3) s = Ok [2; 16])
        (concat (on_lstm_2_state_out p))
    ∧ length (concat (on_lstm_1_state_out p)) = length (state_parts BasicLSTMCell)
    ∧ length (concat (on_lstm_2_state_out p)) = length (state_parts BasicLSTMCell).
Proof.
  apply (scenario_shapes scenario_collaborators None 4 BasicLSTMCell false ∅
           (scenario_feed 6 2 3)).
  - repeat constructor; lia.
  - reflexivity.
  - reflexivity.
  - reflexivity.
  - reflexivity.
Defined.

(** ** C6: the callback registry *)

(** C6: after a successful construction with [aux_estimate=False] the
    callback registry is empty, so looking any key up in it raises
    [KeyError], and no attribute of the auxiliary block exists; with
    [aux_estimate=True] the registry has the single key "pixel_change",
    bound to the method [get_pc_target]. *)
Theorem callback_registry C tp ob ac rp cls layers aux kw p :
  __init__ C tp ob ac rp cls layers aux kw = Ok p →
  aux_estimate p = aux
  ∧ (aux = false →
       callback p = ∅
       ∧ (∀ key, py_getitem (callback p) key = Raise (KeyError key))
       ∧ (∀ A (f : off_policy_attrs → A), getattr_off f p = None))
  ∧ (aux = true →
       dom (callback p) = {[ "pixel_change"%string ]}
       ∧ callback p !! "pixel_change" = Some (BoundMethod "get_pc_target")).
Proof.
  intros [fr Hinit]%init_ok_frame.
  destruct (init_frame_attrs _ _ _ _ _ _ _ _ _ _ _ Hinit)
    as (_ & _ & _ & Hoff & Hcb & _ & Haux).
  split; [exact Haux|]. split.
  - intros ->. rewrite Hcb. split_and!; [done | |].
    + intros key. unfold py_getitem. by rewrite lookup_empty.
    + intros A f. unfold getattr_off. by rewrite Hoff.
  - intros ->. rewrite Hcb. split.
    + by rewrite dom_insert_L, dom_empty_L, union_empty_r_L.
    + apply lookup_insert_eq.
Qed.

Lemma callback_registry_witness :
  match scenario_policy with
  | Ok p =>
      aux_estimate p = false
      ∧ (false = false →
           callback p = ∅
           ∧ (∀ key, py_getitem (callback p) key = Raise (KeyError key))
           ∧ (∀ A (f : off_policy_attrs → A), getattr_off f p = None))
      ∧ (false = true →
           dom (callback p) = {[ "pixel_change"%string ]}
           ∧ callback p !! "pixel_change" = Some (BoundMethod "get_pc_target"))
  | Raise _ => False
  end.
Proof.
  destruct scenario_policy as [p|e] eqn:Hb; [|by raised_from Hb].
  exact (callback_registry _ _ _ _ _ _ _ _ _ p Hb).
Defined.

(** ** C7: the disabled off-policy and auxiliary block *)

(** C7: after every successful construction none of the attributes
    assigned by the off-policy and auxiliary block exists, in particular
    not the off-policy logits and value, the pixel-change Q-features and
    the reward-prediction logits; and the logits, the value and the
    sampled action do not depend on any operation of that block. *)
Theorem off_policy_never_built C tp ob ac rp cls layers aux kw p :
  __init__ C tp ob ac rp cls layers aux kw = Ok p →
  off_policy p = None
  ∧ getattr_off off_logits p = None
  ∧ getattr_off off_vf p = None
  ∧ getattr_off pc_q p = None
  ∧ getattr_off vr_value p = None
  ∧ getattr_off rp_logits p = None
  ∧ uses_off_policy_ops (on_logits p) = false
  ∧ uses_off_policy_ops (on_vf p) = false
  ∧ uses_off_policy_ops (on_sample p) = false.
Proof.
  intros [fr Hinit]%init_ok_frame.
  destruct (init_frame_attrs _ _ _ _ _ _ _ _ _ _ _ Hinit) as (_ & _ & _ & Hoff & _).
  unfold getattr_off. rewrite Hoff. split_and!; try reflexivity.
  all: destruct (init_frame_inv _ _ _ _ _ _ _ _ _ _ _ Hinit)
         as (_ & Hon & _ & _ & _ & _ & Hout & _);
       destruct (on_policy_network_inv _ _ _ _ _ _ _ _ _ _ _ Hon)
         as (ext & u1 & u2 & Hext & Hu1 & Hu2);
       rewrite (on_policy_network_ok _ _ _ _ _ _ _ _ _ _ ext u1 u2 Hext Hu1 Hu2) in Hon;
       injection Hon as <-; injection Hout as Hl Hv Hs; rewrite ?Hl, ?Hv, ?Hs;
       cbn [on_x_lstm_out]; destruct (ob !! "internal"); reflexivity.
Qed.

Lemma off_policy_never_built_witness :
  match scenario_policy with
  | Ok p =>
      off_policy p = None
      ∧ getattr_off off_logits p = None
      ∧ getattr_off off_vf p = None
      ∧ getattr_off pc_q p = None
      ∧ getattr_off vr_value p = None
      ∧ getattr_off rp_logits p = None
      ∧ uses_off_policy_ops (on_logits p) = false
      ∧ uses_off_policy_ops (on_vf p) = false
      ∧ uses_off_policy_ops (on_sample p) = false
  | Raise _ => False
  end.
Proof.
  destruct scenario_policy as [p|e] eqn:Hb; [|by raised_from Hb].
  exact (off_policy_never_built _ _ _ _ _ _ _ _ _ p Hb).
Defined.

(** ** C8: the training-phase flag *)

(** C8: when the object has no [train_phase] attribute as the
    constructor starts, a successful construction leaves in it a boolean
    placeholder of shape [()] named "train_phase_flag_pl" whose default
    value is false. *)
Theorem train_phase_default C ob ac rp cls layers aux kw p :
  __init__ C None ob ac rp cls layers aux kw = Ok p →
  train_phase p = AttrBoolTensor (PlaceholderWithDefault false [] "train_phase_flag_pl").
Proof.
  intros [fr Hinit]%init_ok_frame.
  by destruct (init_frame_attrs _ _ _ _ _ _ _ _ _ _ _ Hinit) as (_ & _ & _ & _ & _ & Htp & _).
Qed.

Lemma train_phase_default_witness :
  match scenario_policy with
  | Ok p =>
      train_phase p
      = AttrBoolTensor (PlaceholderWithDefault false [] "train_phase_flag_pl")
  | Raise _ => False
  end.
Proof.
  destruct scenario_policy as [p|e] eqn:Hb; [|by raised_from Hb].
  exact (train_phase_default _ _ _ _ _ _ _ _ p Hb).
Defined.

(** An attribute that is already there, whatever it holds, is kept. *)
Lemma train_phase_kept C v ob ac rp cls layers aux kw p :
  __init__ C (Some v) ob ac rp cls layers aux kw = Ok p → train_phase p = v.
Proof.
  intros [fr Hinit]%init_ok_frame.
  by destruct (init_frame_attrs _ _ _ _ _ _ _ _ _ _ _ Hinit) as (_ & _ & _ & _ & _ & Htp & _).
Qed.

(** ** C9: only the first and the last entry of [lstm_layers] are used *)

Lemma on_policy_network_first_last C st a_r bs tl ob ac cls layers kw u1 u2 :
  head layers = Some u1 → last layers = Some u2 →
  on_policy_network C st a_r bs tl ob ac cls layers kw
  = on_policy_network C st a_r bs tl ob ac cls [u1; u2] kw.
Proof.
  intros Hu1 Hu2. unfold on_policy_network, py_first, py_last.
  rewrite Hu1, Hu2. reflexivity.
Qed.

(** C9: for every successful construction, with [u1] the first and [u2]
    the last entry of [lstm_layers]: the first recurrent layer is the
    factory called with the one-entry tuple [(u1,)] under the name
    "lstm_1", the second the factory called with [(u2,)] under the name
    "lstm_2"; these are the only two recurrent-layer calls the logits
    depend on; and the construction with the two-entry tuple [(u1, u2)]
    builds the same locals and the same outputs, so that the entries
    between the first and the last have no effect on the graph. *)
Theorem lstm_layers_first_last C tp ob ac rp cls layers aux kw p fr :
  init_frame C tp ob ac rp cls layers aux kw = Ok (p, fr) →
  ∃ u1 u2,
    head layers = Some u1 ∧ last layers = Some u2
    ∧ on_lstm_1 fr
      = lstm_network (on_aac_x_stage1 fr) (on_time_length p) cls [u1]
          (Some "lstm_1"%string) None
    ∧ on_lstm_2 fr
      = lstm_network (on_aac_x_stage2 fr) (on_time_length p) cls [u2]
          (Some "lstm_2"%string) None
    ∧ lstm_calls (on_logits p) = [(Some "lstm_2"%string, [u2]); (Some "lstm_1"%string, [u1])]
    ∧ ∃ p',
        init_frame C tp ob ac rp cls [u1; u2] aux kw = Ok (p', fr)
        ∧ (on_logits p', on_vf p', on_sample p') = (on_logits p, on_vf p, on_sample p)
        ∧ on_lstm_init_state p' = on_lstm_init_state p
        ∧ on_lstm_state_out p' = on_lstm_state_out p
        ∧ on_lstm_state_pl_flatten p' = on_lstm_state_pl_flatten p.
Proof.
  intros Hinit.
  destruct (init_frame_inv _ _ _ _ _ _ _ _ _ _ _ Hinit)
    as (Hac & Hon & _ & _ & _ & Htl & Hout & H1 & H2 & _).
  destruct (init_frame_attrs _ _ _ _ _ _ _ _ _ _ _ Hinit) as (Hi & Ho & Hf & _).
  destruct (on_policy_network_inv _ _ _ _ _ _ _ _ _ _ _ Hon)
    as (ext & u1 & u2 & Hext & Hu1 & Hu2).
  exists u1, u2. split; [exact Hu1|]. split; [exact Hu2|].
  pose proof Hon as Hon2.
  rewrite (on_policy_network_first_last _ _ _ _ _ _ _ _ _ _ u1 u2 Hu1 Hu2) in Hon2.
  destruct (init_frame_ok C tp ob ac rp cls [u1; u2] aux kw fr Hac Hon2) as [p' Hp'].
  destruct (init_frame_inv _ _ _ _ _ _ _ _ _ _ _ Hp')
    as (_ & _ & _ & _ & _ & _ & Hout' & H1' & H2' & _).
  destruct (init_frame_attrs _ _ _ _ _ _ _ _ _ _ _ Hp') as (Hi' & Ho' & Hf' & _).
  rewrite (on_policy_network_ok _ _ _ _ _ _ _ _ _ _ ext u1 u2 Hext Hu1 Hu2) in Hon.
  injection Hon as Hfr. rewrite Htl.
  split; [by rewrite <- Hfr|]. split; [by rewrite <- Hfr|]. split.
  - injection Hout as -> _ _. rewrite <- Hfr. cbn [on_x_lstm_out].
    destruct (ob !! "internal"); reflexivity.
  - exists p'. split; [exact Hp'|]. split; [by rewrite Hout, Hout'|].
    injection H1 as Ha1 Hb1 Hc1. injection H2 as Ha2 Hb2 Hc2.
    injection H1' as Ha1' Hb1' Hc1'. injection H2' as Ha2' Hb2' Hc2'.
    rewrite Hi, Hi', Ho, Ho', Hf, Hf'.
    by rewrite Ha1, Ha1', Ha2, Ha2', Hb1, Hb1', Hb2, Hb2', Hc1, Hc1', Hc2, Hc2'.
Qed.

Lemma lstm_layers_first_last_witness :
  match init_frame scenario_collaborators None scenario_ob_space 4 4 BasicLSTMCell
          [8; 32; 64; 16] false ∅ with
  | Ok (p, fr) =>
      ∃ u1 u2,
        head [8; 32; 64; 16] = Some u1 ∧ last [8; 32; 64; 16] = Some u2
        ∧ on_lstm_1 fr
          = lstm_network (on_aac_x_stage1 fr) (on_time_length p) BasicLSTMCell [u1]
              (Some "lstm_1"%string) None
        ∧ on_lstm_2 fr
          = lstm_network (on_aac_x_stage2 fr) (on_time_length p) BasicLSTMCell [u2]
              (Some "lstm_2"%string) None
        ∧ lstm_calls (on_logits p)
          = [(Some "lstm_2"%string, [u2]); (Some "lstm_1"%string, [u1])]
        ∧ ∃ p',
            init_frame scenario_collaborators None scenario_ob_space 4 4 BasicLSTMCell
              [u1; u2] false ∅ = Ok (p', fr)
            ∧ (on_logits p', on_vf p', on_sample p') = (on_logits p, on_vf p, on_sample p)
            ∧ on_lstm_init_state p' = on_lstm_init_state p
            ∧ on_lstm_state_out p' = on_lstm_state_out p
            ∧ on_lstm_state_pl_flatten p' = on_lstm_state_pl_flatten p
  | Raise _ => False
  end.
Proof.
  destruct (init_frame _ _ _ _ _ _ _ _ _) as [[p fr]|e] eqn:Hb; [|by raised_from Hb].
  exact (lstm_layers_first_last _ _ _ _ _ _ _ _ _ p fr Hb).
Defined.

(** ** C10: the hard-coded 1D geometry *)

(** C10: for every successful construction and whatever the caller put
    in [kwargs], the keyword arguments given to the encoder are the
    caller's with the six entries of the 1D plug-in put over them: each
    of the six names has the hard-coded value, every entry of the plug-in
    is found unchanged, every other name has the caller's entry, and the
    encoder of the graph is called with exactly these arguments. *)
Theorem kwargs_plug_in C tp ob ac rp cls layers aux kw p fr :
  init_frame C tp ob ac rp cls layers aux kw = Ok (p, fr) →
  conv_kwargs fr = dict_update kw plug_in_1d
  ∧ (∃ x ob_shape, on_state_in p !! "external" = Some x
       ∧ on_aac_x_conv fr = Conv2dNetwork x ob_shape ac None (conv_kwargs fr))
  ∧ conv_kwargs fr !! "conv_2d_filter_size" = Some (PyList [3; 1])
  ∧ conv_kwargs fr !! "conv_2d_stride" = Some (PyList [2; 1])
  ∧ conv_kwargs fr !! "pc_estimator_stride" = Some (PyList [2; 1])
  ∧ conv_kwargs fr !! "duell_pc_x_inner_shape" = Some (PyTuple [6; 1; 32])
  ∧ conv_kwargs fr !! "duell_pc_filter_size" = Some (PyTuple [4; 1])
  ∧ conv_kwargs fr !! "duell_pc_stride" = Some (PyTuple [2; 1])
  ∧ (∀ key v, plug_in_1d !! key = Some v → conv_kwargs fr !! key = Some v)
  ∧ (∀ key, plug_in_1d !! key = None → conv_kwargs fr !! key = kw !! key).
Proof.
  intros Hinit.
  destruct (init_frame_inv _ _ _ _ _ _ _ _ _ _ _ Hinit)
    as (_ & Hon & Hst & _).
  destruct (on_policy_network_inv _ _ _ _ _ _ _ _ _ _ _ Hon)
    as (ext & u1 & u2 & Hext & Hu1 & Hu2).
  rewrite (on_policy_network_ok _ _ _ _ _ _ _ _ _ _ ext u1 u2 Hext Hu1 Hu2) in Hon.
  injection Hon as <-. cbn [conv_kwargs on_aac_x_conv].
  assert (∀ key v, plug_in_1d !! key = Some v →
            dict_update kw plug_in_1d !! key = Some v) as Hover.
  { intros key v Hk. unfold dict_update. by apply lookup_union_Some_l. }
  split; [reflexivity|]. split.
  { eexists _, _. split; [|reflexivity].
    by rewrite Hst, lookup_nested_placeholders, Hext. }
  split_and!; try (by apply Hover).
  intros key Hk. unfold dict_update. by apply lookup_union_r.
Qed.

Lemma kwargs_plug_in_witness :
  match init_frame scenario_collaborators None scenario_ob_space 4 4 BasicLSTMCell
          [8; 16] false scenario_kwargs with
  | Ok (p, fr) =>
      conv_kwargs fr = dict_update scenario_kwargs plug_in_1d
      ∧ (∃ x ob_shape, on_state_in p !! "external" = Some x
           ∧ on_aac_x_conv fr = Conv2dNetwork x ob_shape 4 None (conv_kwargs fr))
      ∧ conv_kwargs fr !! "conv_2d_filter_size" = Some (PyList [3; 1])
      ∧ conv_kwargs fr !! "conv_2d_stride" = Some (PyList [2; 1])
      ∧ conv_kwargs fr !! "pc_estimator_stride" = Some (PyList [2; 1])
      ∧ conv_kwargs fr !! "duell_pc_x_inner_shape" = Some (PyTuple [6; 1; 32])
      ∧ conv_kwargs fr !! "duell_pc_filter_size" = Some (PyTuple [4; 1])
      ∧ conv_kwargs fr !! "duell_pc_stride" = Some (PyTuple [2; 1])
      ∧ (∀ key v, plug_in_1d !! key = Some v → conv_kwargs fr !! key = Some v)
      ∧ (∀ key, plug_in_1d !! key = None → conv_kwargs fr !! key = scenario_kwargs !! key)
  | Raise _ => False
  end.
Proof.
  destruct (init_frame _ _ _ _ _ _ _ _ _) as [[p fr]|e] eqn:Hb; [|by raised_from Hb].
  exact (kwargs_plug_in _ _ _ _ _ _ _ _ _ p fr Hb).
Defined.

(** * Further properties of the constructor *)

(** ** When the construction succeeds and how it fails *)


(** X2: an observation mapping without the "external" modality makes the
    construction raise [KeyError('external')], whatever the other
    arguments are, once the action-reward placeholders could be made. *)
Theorem missing_external_raises C tp ob ac rp cls layers aux kw :
  ob !! "external" = None → 0 <= ac + 1 →
  __init__ C tp ob ac rp cls layers aux kw = Raise (KeyError "external").
Proof.
  intros Hext Hac. unfold __init__, init_frame, tf_placeholder. cbn [forallb].
  rewrite bool_decide_true by done. cbn [andb mbind result_bind].
  unfold on_policy_network, encode_and_reshape, py_getitem.
  by rewrite lookup_nested_placeholders, Hext.
Qed.

Lemma missing_external_raises_witness :
  __init__ scenario_collaborators None {[ "internal"%string := [5] ]} 4 4 BasicLSTMCell
    [8; 16] false ∅ = Raise (KeyError "external").
Proof.
  apply (missing_external_raises scenario_collaborators None {[ "internal"%string := [5] ]}
           4 4 BasicLSTMCell [8; 16] false ∅).
  - reflexivity.
  - lia.
Defined.

(** X3: an empty [lstm_layers] makes the construction raise
    [IndexError] (at [lstm_layers[0]]), after the encoder and the first
    concatenation have been built. *)
Theorem empty_lstm_layers_raises C tp ob ac rp cls aux kw :
  is_Some (ob !! "external") → 0 <= ac + 1 →
  __init__ C tp ob ac rp cls [] aux kw = Raise IndexError.
Proof.
  intros [ext Hext] Hac. unfold __init__, init_frame, tf_placeholder. cbn [forallb].
  rewrite bool_decide_true by done. cbn [andb mbind result_bind].
  unfold on_policy_network.
  rewrite (encode_and_reshape_ok _ _ _ _ _ _ _ ext) by done.
  cbn [mbind result_bind].
  by rewrite (tf_concat_ok _ _ _
                (get_shape_stage1 C ac (dict_update kw plug_in_1d) "on_policy_state_in"
                   (Placeholder tf_float32 [None; Some (ac + 1)]
                      "on_policy_action_reward_in_pl")
                   "on_policy_batch_size" ext)).
Qed.

Lemma empty_lstm_layers_raises_witness :
  __init__ scenario_collaborators None scenario_ob_space 4 4 BasicLSTMCell [] false ∅
  = Raise IndexError.
Proof.
  apply (empty_lstm_layers_raises scenario_collaborators None scenario_ob_space 4 4
           BasicLSTMCell false ∅).
  - by exists [10; 10; 3].
  - lia.
Defined.

(** X4: a negative action-reward width [ac_space + 1] is rejected when
    the first placeholder is made (line 67), before the observation
    mapping or [lstm_layers] are looked at: the construction raises
    [ValueError] even if "external" is missing and [lstm_layers] is
    empty. *)
Theorem negative_action_space_raises C tp ob ac rp cls layers aux kw :
  ac + 1 < 0 →
  __init__ C tp ob ac rp cls layers aux kw = Raise ValueError.
Proof.
  intros Hac. unfold __init__, init_frame, tf_placeholder. cbn [forallb].
  by rewrite bool_decide_false by lia.
Qed.

Lemma negative_action_space_raises_witness :
  __init__ scenario_collaborators None ∅ (-3) 4 BasicLSTMCell [] false ∅
  = Raise ValueError.
Proof.
  apply (negative_action_space_raises scenario_collaborators None ∅ (-3) 4
           BasicLSTMCell [] false ∅).
  lia.
Defined.

(** ** Evaluation: what a feed must agree on *)

Lemma run_reshape_3d_any C feed x m s bs_t b dyn0 n depth :
  run C feed x = Ok (m :: s) →
  run_scalar C feed bs_t = Ok b →
  run_scalar C feed dyn0 = Ok n →
  run C feed (Reshape x [bs_t; CastInt32TrueDiv dyn0 bs_t; PyDim depth])
  = reshape_dims (m * np_prod s) (rnn_input_dims (nonfinite_cast C) n b depth).
Proof.
  intros Hx Hb Hn. rewrite run_Reshape, Hx. cbn [map sequence mbind result_bind].
  rewrite (run_CastInt32TrueDiv _ _ _ _ n b), Hb by done. reflexivity.
Qed.

(** The two reshapes to [[batch, time, features]] of a successful
    construction, evaluated on a feed that has the external observations
    and the batch size. *)
Lemma run_frame_reshapes C tp ob ac rp cls layers aux kw p fr feed ext_pl n rest b :
  init_frame C tp ob ac rp cls layers aux kw = Ok (p, fr) →
  on_state_in p !! "external" = Some ext_pl →
  run C feed ext_pl = Ok (n :: rest) →
  run_scalar C feed (on_batch_size p) = Ok b →
  on_aac_x_stage1 fr = Concat [on_aac_x_3d fr; on_a_r_in_3d fr]
  ∧ (∃ feats,
       run C feed (on_aac_x_3d fr)
       = reshape_dims (n * np_prod feats)
           (rnn_input_dims (nonfinite_cast C) n b (np_prod feats)))
  ∧ (∀ m, run C feed (on_a_r_in p) = Ok [m; ac + 1] →
       run C feed (on_a_r_in_3d fr)
       = reshape_dims (m * (ac + 1)) (rnn_input_dims (nonfinite_cast C) n b (ac + 1))).
Proof.
  intros Hinit Hpl Hext_run Hb_run.
  destruct (init_frame_inv _ _ _ _ _ _ _ _ _ _ _ Hinit)
    as (_ & Hon & Hst & Har & Hbs & _).
  destruct (on_policy_network_inv _ _ _ _ _ _ _ _ _ _ _ Hon)
    as (ext & u1 & u2 & Hext & Hu1 & Hu2).
  rewrite (on_policy_network_ok _ _ _ _ _ _ _ _ _ _ ext u1 u2 Hext Hu1 Hu2) in Hon.
  injection Hon as <-. cbn [on_a_r_in_3d on_aac_x_3d on_aac_x_stage1].
  rewrite Hst, lookup_nested_placeholders, Hext in Hpl. injection Hpl as <-.
  rewrite Hbs in Hb_run. rewrite Har.
  set (conv := Conv2dNetwork _ ext ac None _).
  assert (run C feed conv
          = Ok (n :: conv_2d_features C ext ac (dict_update kw plug_in_1d))) as Hconv
    by (unfold conv; by rewrite (run_Conv2dNetwork _ _ _ _ _ _ _ _ Hext_run)).
  pose proof (run_ShapeItem_0 _ _ _ _ _ Hconv) as Hdyn.
  split; [reflexivity|]. split.
  - eexists. by apply run_reshape_3d_any.
  - intros m Hm. rewrite (run_reshape_3d_any _ _ _ m [ac + 1] _ b _ n) by done.
    f_equal. cbn. lia.
Qed.

(** A failure of the first concatenation is the failure of the logits,
    of the value and of the sampled action. *)
Lemma run_outputs_raise C tp ob ac rp cls layers aux kw p fr feed e :
  init_frame C tp ob ac rp cls layers aux kw = Ok (p, fr) →
  run C feed (on_aac_x_stage1 fr) = Raise e →
  run C feed (on_logits p) = Raise e
  ∧ run C feed (on_vf p) = Raise e
  ∧ run C feed (on_sample p) = Raise e.
Proof.
  intros Hinit Hstage1.
  destruct (init_frame_inv _ _ _ _ _ _ _ _ _ _ _ Hinit)
    as (_ & Hon & _ & _ & _ & _ & Hout & _).
  destruct (on_policy_network_inv _ _ _ _ _ _ _ _ _ _ _ Hon)
    as (ext & u1 & u2 & Hext & Hu1 & Hu2).
  rewrite (on_policy_network_ok _ _ _ _ _ _ _ _ _ _ ext u1 u2 Hext Hu1 Hu2) in Hon.
  injection Hon as <-. injection Hout as -> -> ->.
  cbn [on_aac_x_stage1 on_x_lstm_out lstm_network fst snd app] in *.
  split_and!.
  - apply run_DenseAacLogits_Raise, run_Reshape_Raise, run_LstmOutput_Raise,
      run_Concat_Raise, run_LstmOutput_Raise, Hstage1.
  - apply run_DenseAacValue_Raise, run_Reshape_Raise, run_LstmOutput_Raise,
      run_Concat_Raise, run_LstmOutput_Raise, Hstage1.
  - apply run_DenseAacSample_Raise, run_Reshape_Raise, run_LstmOutput_Raise,
      run_Concat_Raise, run_LstmOutput_Raise, Hstage1.
Qed.

(** The first concatenation fails as soon as the reshape of the
    action-reward batch does. *)
Lemma run_stage1_raise C feed x3 ar3 size dims :
  run C feed x3 = reshape_dims size dims →
  run C feed ar3 = Raise InvalidArgumentError →
  run C feed (Concat [x3; ar3]) = Raise InvalidArgumentError.
Proof.
  intros Hx3 Har3. rewrite run_Concat. cbn [map sequence]. rewrite Hx3, Har3.
  destruct (reshape_dims size dims) as [s|e] eqn:E; [done|].
  by rewrite (reshape_dims_Raise _ _ _ E).
Qed.

(** X7: the action-reward batch must have as many steps as the
    observation batch.  For every successful construction with a
    non-negative action space, fed [n] observation steps with a positive
    batch size that divides [n] but an action-reward batch of [m ≠ n]
    steps, the reshape of the action-reward batch is rejected and the
    evaluation of the logits, of the value and of the sampled action
    raises [InvalidArgumentError]. *)
Theorem action_reward_batch_mismatch C tp ob ac rp cls layers aux kw p fr feed
    ext_pl n rest m b :
  init_frame C tp ob ac rp cls layers aux kw = Ok (p, fr) →
  0 <= ac → 0 < b → (b | n) → m ≠ n →
  on_state_in p !! "external" = Some ext_pl →
  run C feed ext_pl = Ok (n :: rest) →
  run C feed (on_a_r_in p) = Ok [m; ac + 1] →
  run_scalar C feed (on_batch_size p) = Ok b →
  run C feed (on_a_r_in_3d fr) = Raise InvalidArgumentError
  ∧ run C feed (on_logits p) = Raise InvalidArgumentError
  ∧ run C feed (on_vf p) = Raise InvalidArgumentError
  ∧ run C feed (on_sample p) = Raise InvalidArgumentError.
Proof.
  intros Hinit Hac Hb [t ->] Hm Hpl Hext_run Har_run Hb_run.
  destruct (run_frame_reshapes _ _ _ _ _ _ _ _ _ _ _ _ _ _ _ _ Hinit Hpl Hext_run Hb_run)
    as (Hs1 & [feats Hx3] & Har3).
  specialize (Har3 m Har_run).
  destruct (init_frame_inv _ _ _ _ _ _ _ _ _ _ _ Hinit) as (_ & _ & Hst & _).
  assert (0 <= t * b) as Hn.
  { rewrite Hst, lookup_nested_placeholders in Hpl.
    destruct (ob !! "external"); [|done]. injection Hpl as <-.
    by destruct (run_Placeholder_inv _ _ _ _ _ _ Hext_run)
      as [_ H%is_compatible_leading]. }
  assert (run C feed (on_a_r_in_3d fr) = Raise InvalidArgumentError) as Hraise.
  { rewrite Har3. unfold rnn_input_dims.
    rewrite (Z.mul_comm t b), max_seq_len_exact by lia.
    apply reshape_dims_mismatch; [repeat constructor; nia | cbn; nia]. }
  split; [exact Hraise|].
  apply (run_outputs_raise _ _ _ _ _ _ _ _ _ _ _ _ _ Hinit).
  rewrite Hs1. by eapply run_stage1_raise.
Qed.

Lemma action_reward_batch_mismatch_witness :
  match scenario_built with
  | Ok (p, fr) =>
      run scenario_collaborators (scenario_feed_internal 6 4 2 3) (on_a_r_in_3d fr)
      = Raise InvalidArgumentError
      ∧ run scenario_collaborators (scenario_feed_internal 6 4 2 3) (on_logits p)
        = Raise InvalidArgumentError
      ∧ run scenario_collaborators (scenario_feed_internal 6 4 2 3) (on_vf p)
        = Raise InvalidArgumentError
      ∧ run scenario_collaborators (scenario_feed_internal 6 4 2 3) (on_sample p)
        = Raise InvalidArgumentError
  | Raise _ => False
  end.
Proof.
  destruct scenario_built as [[p fr]|e] eqn:Hb; [|by raised_from Hb].
  unfold scenario_built in Hb.
  apply (action_reward_batch_mismatch _ _ _ _ _ _ _ _ _ p fr
           (scenario_feed_internal 6 4 2 3)
           (Placeholder tf_float32 [None; Some 10; Some 10; Some 3]
              "on_policy_state_in_external") 6 [10; 10; 3] 4 2 Hb).
  - lia.
  - lia.
  - by exists 3.
  - lia.
  - by compute_from Hb.
  - by compute_from Hb.
  - by compute_from Hb.
  - by compute_from Hb.
Defined.




(** ** Evaluation of a well-fed graph, with or without "internal" *)





(** ** Static shapes *)

(** X9: the batch size is never known statically.  For every successful
    construction the inputs of both recurrent layers have the static
    shape [[None, None, _]], the flattened output of the second layer
    [[None, lstm_layers[-1]]], the logits [[None, ac_space]], the value
    and the sampled action [[None]]: the construction itself checks
    nothing about the batch size or the number of steps. *)
Theorem static_shapes_batch_unknown C tp ob ac rp cls layers aux kw p fr :
  init_frame C tp ob ac rp cls layers aux kw = Ok (p, fr) →
  (∃ w, get_shape C (on_aac_x_stage1 fr) = Some [None; None; w])
  ∧ (∃ w, get_shape C (on_aac_x_stage2 fr) = Some [None; None; w])
  ∧ (∀ u2, last layers = Some u2 → u2 ≠ -1 →
       get_shape C (on_x_lstm_out fr) = Some [None; Some u2])
  ∧ get_shape C (on_logits p) = Some [None; Some ac]
  ∧ get_shape C (on_vf p) = Some [None]
  ∧ get_shape C (on_sample p) = Some [None].
Proof.
  intros Hinit.
  destruct (init_frame_inv _ _ _ _ _ _ _ _ _ _ _ Hinit)
    as (_ & Hon & _ & _ & _ & _ & Hout & _).
  destruct (on_policy_network_inv _ _ _ _ _ _ _ _ _ _ _ Hon)
    as (ext & u1 & u2 & Hext & Hu1 & Hu2).
  rewrite (on_policy_network_ok _ _ _ _ _ _ _ _ _ _ ext u1 u2 Hext Hu1 Hu2) in Hon.
  injection Hon as <-. injection Hout as -> -> ->.
  cbn [on_aac_x_stage1 on_aac_x_stage2 on_x_lstm_out].
  pose proof (get_shape_stage2 C ob ac cls (dict_update kw plug_in_1d)
                "on_policy_state_in"
                (Placeholder tf_float32 [None; Some (ac + 1)] "on_policy_action_reward_in_pl")
                "on_policy_batch_size"
                (ScalarPlaceholder tf_int32 "on_policy_sequence_size") ext u1) as Hs2.
  split_and!.
  - eexists. reflexivity.
  - eexists. exact Hs2.
  - intros u Hu Hne. rewrite Hu2 in Hu. injection Hu as <-.
    cbn. by rewrite decide_False.
  - destruct (ob !! "internal"); reflexivity.
  - destruct (ob !! "internal"); reflexivity.
  - destruct (ob !! "internal"); reflexivity.
Qed.

Lemma static_shapes_batch_unknown_witness :
  match scenario_built with
  | Ok (p, fr) =>
      (∃ w, get_shape scenario_collaborators (on_aac_x_stage1 fr) = Some [None; None; w])
      ∧ (∃ w, get_shape scenario_collaborators (on_aac_x_stage2 fr) = Some [None; None; w])
      ∧ (∀ u2, last [8; 16] = Some u2 → u2 ≠ -1 →
           get_shape scenario_collaborators (on_x_lstm_out fr) = Some [None; Some u2])
      ∧ get_shape scenario_collaborators (on_logits p) = Some [None; Some 4]
      ∧ get_shape scenario_collaborators (on_vf p) = Some [None]
      ∧ get_shape scenario_collaborators (on_sample p) = Some [None]
  | Raise _ => False
  end.
Proof.
  destruct scenario_built as [[p fr]|e] eqn:Hb; [|by raised_from Hb].
  unfold scenario_built in Hb.
  exact (static_shapes_batch_unknown _ _ _ _ _ _ _ _ _ p fr Hb).
Defined.

(** ** The body of the disabled block, had it run *)

Lemma reshape_back_lstm_output C x tl cls layers name reuse dyn0 b0 t0 w :
  get_shape C x = Some [b0; t0; w] →
  reshape_back C (LstmOutput x tl cls layers name reuse) dyn0
  = match last layers with
    | Some u => Ok (Reshape (LstmOutput x tl cls layers name reuse) [dyn0; PyDim u])
    | None => Raise TypeError
    end.
Proof.
  intros Hx. unfold reshape_back, as_list.
  change (get_shape C (LstmOutput x tl cls layers name reuse))
    with (match get_shape C x with
          | Some [b; t; _] => Some [b; t; last layers]
          | _ => None
          end).
  rewrite Hx. cbn. by destruct (last layers).
Qed.

(** X10: what lines 130-205 build when they run.  A successful run needs
    [kwargs] without a "reuse" entry and a non-empty [lstm_layers].  The
    off-policy pass calls the recurrent-layer factory once, without a
    name and with the whole [lstm_layers] tuple, not twice with one entry
    each as the on-policy part does; the pixel-control and value-replay
    heads sit on that same call; the reward-prediction head is fed from
    the encoder alone and depends on no recurrent layer; and the
    value-replay value is the off-policy value. *)
Theorem off_policy_block_structure C ob ac rp cls layers kw ar_name bs_name tl_name attrs :
  off_policy_network C
    (nested_placeholders ob None "off_policy_state_in_pl")
    (nested_placeholders ob None "rp_state_in")
    (Placeholder tf_float32 [None; Some (ac + 1)] ar_name)
    (ScalarPlaceholder tf_int32 bs_name) (ScalarPlaceholder tf_int32 tl_name)
    ob ac rp cls layers kw = Ok attrs →
  kw !! "reuse" = None
  ∧ layers ≠ []
  ∧ lstm_calls (off_logits attrs) = [(None, layers)]
  ∧ lstm_calls (off_vf attrs) = [(None, layers)]
  ∧ lstm_calls (pc_q attrs) = [(None, layers)]
  ∧ lstm_calls (rp_logits attrs) = []
  ∧ vr_value attrs = off_vf attrs
  ∧ pc_lstm_state_pl_flatten attrs = off_lstm_state_pl_flatten attrs
  ∧ vr_lstm_state_pl_flatten attrs = off_lstm_state_pl_flatten attrs
  ∧ uses_off_policy_ops (off_logits attrs) = true.
Proof.
  intros H. unfold off_policy_network in H.
  unfold py_in_keys in H.
  destruct (kw !! "reuse") as [r|] eqn:Hreuse.
  { by rewrite bool_decide_true in H by eauto. }
  rewrite bool_decide_false in H by (by intros [? ?]).
  cbn [mbind result_bind] in H.
  destruct (ob !! "external") as [ext|] eqn:Hext.
  2: { unfold encode_and_reshape, py_getitem in H.
       rewrite !lookup_nested_placeholders, ?Hext in H. done. }
  rewrite (encode_and_reshape_ok _ _ _ _ _ _ _ ext) in H by done.
  cbn [mbind result_bind] in H.
  rewrite (append_internal_ok C ob ac cls kw "off_policy_state_in_pl"
             (Placeholder tf_float32 [None; Some (ac + 1)] ar_name) bs_name
             (ScalarPlaceholder tf_int32 tl_name) ext 0 0) in H.
  cbn [mbind result_bind] in H.
  unfold py_getitem in H. rewrite !lookup_nested_placeholders, ?Hext in H.
  destruct (ob !! "internal") as [shp|] eqn:Hint;
    (erewrite tf_concat_ok in H by reflexivity);
    cbn [mbind result_bind lstm_network fst snd] in H;
    (erewrite reshape_back_lstm_output in H by reflexivity);
    (destruct (last layers) as [u|] eqn:Hlast; [|done]);
    cbn in H; rewrite np_prod_static_Some in H; cbn in H;
    injection H as <-; cbn;
    (split_and!; try reflexivity; by intros ->).
Qed.

Lemma off_policy_block_structure_witness :
  match off_policy_network scenario_collaborators
          (nested_placeholders scenario_ob_space None "off_policy_state_in_pl")
          (nested_placeholders scenario_ob_space None "rp_state_in")
          (Placeholder tf_float32 [None; Some (4 + 1)] "off_policy_action_reward_in_pl")
          (ScalarPlaceholder tf_int32 "off_policy_batch_size")
          (ScalarPlaceholder tf_int32 "off_policy_sequence_size")
          scenario_ob_space 4 4 BasicLSTMCell [8; 16] (dict_update ∅ plug_in_1d) with
  | Ok attrs =>
      dict_update ∅ plug_in_1d !! "reuse" = None
      ∧ [8; 16] ≠ []
      ∧ lstm_calls (off_logits attrs) = [(None, [8; 16])]
      ∧ lstm_calls (off_vf attrs) = [(None, [8; 16])]
      ∧ lstm_calls (pc_q attrs) = [(None, [8; 16])]
      ∧ lstm_calls (rp_logits attrs) = []
      ∧ vr_value attrs = off_vf attrs
      ∧ pc_lstm_state_pl_flatten attrs = off_lstm_state_pl_flatten attrs
      ∧ vr_lstm_state_pl_flatten attrs = off_lstm_state_pl_flatten attrs
      ∧ uses_off_policy_ops (off_logits attrs) = true
  | Raise _ => False
  end.
Proof.
  destruct (off_policy_network _ _ _ _ _ _ _ _ _ _ _ _) as [attrs|e] eqn:Hb;
    [|by raised_from Hb].
  exact (off_policy_block_structure _ _ _ _ _ _ _ _ _ _ attrs Hb).
Defined.
